(** * Switch-migration tool: interface grammar, block parser, translator,
      uplink filter and Layer-3 importer

    Shallow embedding of
      - app/universal_interface_parser.py
      - app/interface_translator.py  (translate_interface_name,
                                      translate_full_config)
      - app/config_parser.py
      - app/template_generator.py    (generate_simple_config)
      - app/routes.py                (process_stack, parse_layer3_excel,
                                      generate_layer3_config)

    Conventions of the embedding.
      - A Python [str] is a [string]; a character stands for the code point
        of the same number (0..255).  Whitespace, decimal digits and
        lower-casing are those of Python on that range.
      - A Python [int] is a [Z].
      - A call that can raise returns [result]; [Raise] carries the
        exception class.
      - [re] patterns are terms of [Re.regex], matched by a backtracking
        matcher that lists the ways to match in the order [re] tries them. *)

From Stdlib Require Import ZArith Ascii String List Bool Lia DecimalString
  DecimalPos DecimalZ Sorted.
From stdpp Require Import base option list strings gmap.

Set Warnings "-register-all".
#[global] Arguments String.append !s1 s2 : simpl nomatch.
Local Open Scope string_scope.
Local Open Scope Z_scope.

(* ------------------------------------------------------------------ *)
(** ** Python values and exceptions *)

Module Py.

Inductive exn := TypeError | ValueError | IndexError | KeyError.

Inductive result (A : Type) :=
| Ok (a : A)
| Raise (e : exn).
Arguments Ok {A} a.
Arguments Raise {A} e.

Definition bind {A B} (m : result A) (k : A -> result B) : result B :=
  match m with
  | Ok a => k a
  | Raise e => Raise e
  end.

(** JSON-like values held by the dicts that travel between the parser,
    the translator and the routes. *)
Inductive pyval :=
| PNone
| PBool (b : bool)
| PInt (z : Z)
| PStr (s : string)
| PList (l : list pyval).

(** [bool(v)]. *)
Definition truthy (v : pyval) : bool :=
  match v with
  | PNone => false
  | PBool b => b
  | PInt z => negb (z =? 0)
  | PStr s => negb (String.eqb s "")
  | PList l => match l with [] => false | _ => true end
  end.

(** *** Characters *)

Definition code (c : ascii) : nat := nat_of_ascii c.

(** [\d] of a str pattern, and the characters [int()] reads as digits:
    on code points below 256 these are '0'..'9'. *)
Definition is_digit (c : ascii) : bool :=
  (48 <=? code c)%nat && (code c <=? 57)%nat.

(** [str.isspace], which is what [strip()], [split()] and [\s] use:
    TAB..CR, FS..US, space, NEL and NBSP. *)
Definition is_space (c : ascii) : bool :=
  let n := code c in
  ((9 <=? n)%nat && (n <=? 13)%nat)
  || ((28 <=? n)%nat && (n <=? 32)%nat)
  || (n =? 133)%nat || (n =? 160)%nat.

(** [str.lower] on one character: 'A'..'Z' and the accented capitals
    U+00C0..U+00DE (U+00D7, the multiplication sign, has no case). *)
Definition lower_char (c : ascii) : ascii :=
  let n := code c in
  if ((65 <=? n)%nat && (n <=? 90)%nat)
     || ((192 <=? n)%nat && (n <=? 222)%nat && negb (n =? 215)%nat)
  then ascii_of_nat (n + 32)
  else c.

(** *** Strings *)

Fixpoint lower (s : string) : string :=
  match s with
  | EmptyString => EmptyString
  | String c s' => String (lower_char c) (lower s')
  end.

Fixpoint forall_chars (p : ascii -> bool) (s : string) : bool :=
  match s with
  | EmptyString => true
  | String c s' => p c && forall_chars p s'
  end.

(** [s.startswith(p)]; returns what follows the prefix. *)
Fixpoint strip_prefix (p s : string) : option string :=
  match p, s with
  | EmptyString, _ => Some s
  | String a p', String b s' =>
      if Ascii.eqb a b then strip_prefix p' s' else None
  | String _ _, EmptyString => None
  end.

Definition startswith (s p : string) : bool :=
  match strip_prefix p s with Some _ => true | None => false end.

(** [p in s]. *)
Fixpoint contains (p s : string) : bool :=
  startswith s p ||
  match s with
  | EmptyString => false
  | String _ s' => contains p s'
  end.

Fixpoint lstrip (s : string) : string :=
  match s with
  | EmptyString => EmptyString
  | String c s' => if is_space c then lstrip s' else s
  end.

Fixpoint rstrip (s : string) : string :=
  match s with
  | EmptyString => EmptyString
  | String c s' =>
      match rstrip s' with
      | EmptyString => if is_space c then EmptyString else String c EmptyString
      | r => String c r
      end
  end.

(** [s.strip()]. *)
Definition strip (s : string) : string := rstrip (lstrip s).

(** [s.split(sep)] for a one-character separator: never empty. *)
Fixpoint split_on (sep : ascii) (s : string) : list string :=
  match s with
  | EmptyString => [EmptyString]
  | String c s' =>
      if Ascii.eqb c sep then EmptyString :: split_on sep s'
      else match split_on sep s' with
           | [] => [String c EmptyString]
           | w :: ws => String c w :: ws
           end
  end.

(** [s.split()]: the maximal runs of non-whitespace. *)
Fixpoint split_ws (s : string) : list string :=
  match s with
  | EmptyString => []
  | String c s' =>
      if is_space c then split_ws s'
      else match s' with
           | EmptyString => [String c EmptyString]
           | String d _ =>
               if is_space d then String c EmptyString :: split_ws s'
               else match split_ws s' with
                    | [] => [String c EmptyString]
                    | w :: ws => String c w :: ws
                    end
           end
  end.

(** [s.replace(old, new)] for a non-empty [old]: occurrences are replaced
    from the left and do not overlap; [skip] counts the characters of the
    occurrence being replaced that are still to be passed. *)
Fixpoint replace_from (old new s : string) (skip : nat) : string :=
  match s with
  | EmptyString => EmptyString
  | String c s' =>
      match skip with
      | S k => replace_from old new s' k
      | O =>
          if startswith s old
          then new +:+ replace_from old new s' (String.length old - 1)
          else String c (replace_from old new s' 0)
      end
  end.

Definition replace (s old new : string) : string := replace_from old new s 0.

(** [l[i]] for [i >= 0]. *)
Definition index {A} (l : list A) (i : nat) : result A :=
  match nth_error l i with
  | Some a => Ok a
  | None => Raise IndexError
  end.

(** *** int() and str() on integers *)

Definition digit_value (c : ascii) : Z := Z.of_nat (code c) - 48.

Fixpoint int_digits (acc : Z) (s : string) : Z :=
  match s with
  | EmptyString => acc
  | String c s' => int_digits (10 * acc + digit_value c) s'
  end.

(** A non-empty run of decimal digits. *)
Definition is_number (s : string) : bool :=
  negb (String.eqb s "") && forall_chars is_digit s.

(** [int(s)] where [s] is a run of decimal digits, the only strings the
    code converts.  Any other string is reported as [ValueError]; Python
    accepts a few more (a sign, surrounding blanks), so a call that
    returns here returns the same value there.  The interpreter's
    optional cap on the number of digits ([sys.set_int_max_str_digits])
    is taken to be off. *)
Definition int (s : string) : result Z :=
  if is_number s then Ok (int_digits 0 s) else Raise ValueError.

(** [str(z)], which is also how an f-string renders an int: decimal,
    no leading zero, a minus sign when negative. *)
Definition str (z : Z) : string :=
  DecimalString.NilZero.string_of_int (Z.to_int z).

(** The string is empty or its first character is not of class [p]. *)
Definition not_starting (p : ascii -> bool) (s : string) : bool :=
  match s with
  | EmptyString => true
  | String c _ => negb (p c)
  end.

(** Character classes used below: anything but whitespace; a digit or
    a blank. *)
Definition no_space (c : ascii) : bool := negb (is_space c).

Definition digit_or_blank (c : ascii) : bool :=
  is_digit c || Ascii.eqb c " "%char.

(** Truth of an optional str: neither [None] nor empty. *)
Definition truthy_str (o : option string) : bool :=
  match o with
  | Some s => negb (String.eqb s "")
  | None => false
  end.

(** Truth of an optional int: neither [None] nor 0. *)
Definition truthy_int (o : option Z) : bool :=
  match o with Some z => negb (z =? 0) | None => false end.

(** [sep.join(l)] *)
Fixpoint join (sep : string) (l : list string) : string :=
  match l with
  | [] => EmptyString
  | [x] => x
  | x :: l' => x +:+ sep +:+ join sep l'
  end.

(** [sorted(set(l))] on strings: ascending by code point, each string
    once. *)
Fixpoint insert_sorted (x : string) (l : list string) : list string :=
  match l with
  | [] => [x]
  | y :: l' =>
      match String.compare x y with
      | Lt => x :: l
      | Eq => l
      | Gt => y :: insert_sorted x l'
      end
  end.

Definition sorted_set (l : list string) : list string :=
  List.fold_right insert_sorted [] l.

(** [sorted(l)] on integers. *)
Fixpoint insert_int (x : Z) (l : list Z) : list Z :=
  match l with
  | [] => [x]
  | y :: l' => if x <=? y then x :: l else y :: insert_int x l'
  end.

Definition sorted_ints (l : list Z) : list Z :=
  List.fold_right insert_int [] l.

End Py.

Import Py.

#[global] Instance result_ret : MRet Py.result := @Py.Ok.
#[global] Instance result_bind : MBind Py.result :=
  fun A B k m => Py.bind m k.

(* ------------------------------------------------------------------ *)
(** ** The fragment of [re] the tool uses *)

Module Re.

(** Patterns.  Every repetition in the tool's patterns is a greedy
    repetition of a character class ([\d+], [\s+], [\s*], [[\d/]+]), so
    that is the only repetition here: [Rep p lo] is "at least [lo]
    characters of class [p], as many as possible first". *)
Inductive regex :=
| Lit (w : string)
| Rep (p : ascii -> bool) (lo : nat)
| Seq (r1 r2 : regex)
| Alt (r1 r2 : regex)
| Opt (r : regex)
| Grp (r : regex).

(** With [re.IGNORECASE] literals are compared after lower-casing. *)
Definition fold_case (ic : bool) (c : ascii) : ascii :=
  if ic then lower_char c else c.

Fixpoint lit_prefix (ic : bool) (w s : string) : option string :=
  match w, s with
  | EmptyString, _ => Some s
  | String a w', String b s' =>
      if Ascii.eqb (fold_case ic a) (fold_case ic b)
      then lit_prefix ic w' s' else None
  | String _ _, EmptyString => None
  end.

(** The ways to take [k] leading characters of class [p], longest first,
    each with what remains. *)
Fixpoint reps (p : ascii -> bool) (s : string) : list (nat * string) :=
  match s with
  | EmptyString => [(O, EmptyString)]
  | String c s' =>
      if p c
      then (List.map (fun kr => (S (fst kr), snd kr)) (reps p s') ++ [(O, s)])%list
      else [(O, s)]
  end.

(** The text between the start of [s] and the start of its suffix [rest]. *)
Definition consumed (s rest : string) : string :=
  substring 0 (String.length s - String.length rest) s.

(** A backtracking point: the rest of the subject and the groups closed
    so far, first group first.  No pattern of the tool nests a group or
    leaves one unmatched, so this list is [groups()]. *)
Definition state : Type := string * list string.

(** All the ways [r] matches at the start of [s], in the order the
    backtracking matcher of [re] finds them. *)
Fixpoint run (ic : bool) (r : regex) (s : string) (caps : list string)
  : list state :=
  match r with
  | Lit w =>
      match lit_prefix ic w s with
      | Some rest => [(rest, caps)]
      | None => []
      end
  | Rep p lo =>
      List.map (fun kr => (snd kr, caps))
        (List.filter (fun kr => (lo <=? fst kr)%nat) (reps p s))
  | Seq r1 r2 =>
      List.flat_map (fun st => run ic r2 (fst st) (snd st)) (run ic r1 s caps)
  | Alt r1 r2 => (run ic r1 s caps ++ run ic r2 s caps)%list
  | Opt r1 => (run ic r1 s caps ++ [(s, caps)])%list
  | Grp r1 =>
      List.map (fun st => (fst st, (snd st ++ [consumed s (fst st)])%list))
        (run ic r1 s caps)
  end.

(** A match object: [group(0)] and [groups()]. *)
Record mobj := { whole : string; groups : list string }.

(** [re.match(r, s)]. *)
Definition match_ (ic : bool) (r : regex) (s : string) : option mobj :=
  match run ic r s [] with
  | (rest, caps) :: _ => Some {| whole := consumed s rest; groups := caps |}
  | [] => None
  end.

(** [re.search(r, s)]: the first position where [r] matches. *)
Fixpoint search (ic : bool) (r : regex) (s : string) : option mobj :=
  match match_ ic r s with
  | Some m => Some m
  | None =>
      match s with
      | EmptyString => None
      | String _ s' => search ic r s'
      end
  end.

(** The successive non-overlapping matches, left to right; [skip] is the
    number of characters of the previous match still to pass. *)
Fixpoint finditer_from (ic : bool) (r : regex) (s : string) (skip : nat)
  : list mobj :=
  match s with
  | EmptyString =>
      match match_ ic r s with Some m => [m] | None => [] end
  | String _ s' =>
      match skip with
      | S k => finditer_from ic r s' k
      | O =>
          match match_ ic r s with
          | Some m => m :: finditer_from ic r s' (String.length (whole m) - 1)
          | None => finditer_from ic r s' 0
          end
      end
  end.

(** [re.findall(r, s)] for a pattern with at most one group: the group
    if there is one, else the whole match. *)
Definition findall (ic : bool) (r : regex) (s : string) : list string :=
  List.map (fun m => match groups m with [g] => g | _ => whole m end)
    (finditer_from ic r s 0).

(** [\d+] *)
Definition digits : regex := Rep is_digit 1.

(** What a way of matching looks like: [matches ic r w gs] says that [r]
    matches exactly the text [w] and closes the groups [gs] on the way.
    [run] only produces such ways ([run_sound] below). *)
Inductive matches (ic : bool) : regex -> string -> list string -> Prop :=
| M_Lit l w :
    lit_prefix ic l w = Some EmptyString -> matches ic (Lit l) w []
| M_Rep p lo w :
    forall_chars p w = true -> (lo <= String.length w)%nat ->
    matches ic (Rep p lo) w []
| M_Seq r1 r2 w1 w2 g1 g2 :
    matches ic r1 w1 g1 -> matches ic r2 w2 g2 ->
    matches ic (Seq r1 r2) (w1 +:+ w2) (g1 ++ g2)%list
| M_AltL r1 r2 w g : matches ic r1 w g -> matches ic (Alt r1 r2) w g
| M_AltR r1 r2 w g : matches ic r2 w g -> matches ic (Alt r1 r2) w g
| M_OptSome r w g : matches ic r w g -> matches ic (Opt r) w g
| M_OptNone r : matches ic (Opt r) EmptyString []
| M_Grp r w g : matches ic r w g -> matches ic (Grp r) w (g ++ [w])%list.


(** A pattern that finds the numbers of a text: it matches a run of
    digits whole, giving it as the match or as its one group, and
    nothing that does not start with a digit. *)
Definition number_finder (r : regex) : Prop :=
  (forall d rest,
      is_number d = true -> not_starting is_digit rest = true ->
      exists m, match_ false r (d +:+ rest) = Some m
                /\ whole m = d
                /\ match groups m with [g] => g | _ => whole m end = d)
  /\ (forall c s, is_digit c = false -> match_ false r (String c s) = None)
  /\ match_ false r "" = None.

(** [re.findall(r, s)] for a pattern with several groups: one tuple of
    groups per match. *)
Definition findall_groups (ic : bool) (r : regex) (s : string)
  : list (list string) :=
  List.map groups (finditer_from ic r s 0).

(** [\w] of a str pattern on code points below 256: digits, letters,
    the underscore, and the letters and digit-like signs of Latin-1. *)
Definition is_word (c : ascii) : bool :=
  let n := code c in
  ((48 <=? n)%nat && (n <=? 57)%nat)
  || ((65 <=? n)%nat && (n <=? 90)%nat)
  || (n =? 95)%nat
  || ((97 <=? n)%nat && (n <=? 122)%nat)
  || (n =? 170)%nat
  || ((178 <=? n)%nat && (n <=? 179)%nat)
  || (n =? 181)%nat
  || ((185 <=? n)%nat && (n <=? 186)%nat)
  || ((188 <=? n)%nat && (n <=? 190)%nat)
  || ((192 <=? n)%nat && (n <=? 214)%nat)
  || ((216 <=? n)%nat && (n <=? 246)%nat)
  || ((248 <=? n)%nat && (n <=? 255)%nat).

End Re.

(* ------------------------------------------------------------------ *)
(** ** universal_interface_parser.py *)

Module UniversalInterfaceParser.

Inductive format := full | slot_port | generic.

Record pattern_info := {
  pi_name : string;
  pi_pattern : Re.regex;
  pi_format : format
}.

(** [(w)(\d+)/(\d+)/(\d+)] *)
Definition three_segments (w : string) : Re.regex :=
  Re.Seq (Re.Grp (Re.Lit w))
    (Re.Seq (Re.Grp Re.digits)
       (Re.Seq (Re.Lit "/")
          (Re.Seq (Re.Grp Re.digits)
             (Re.Seq (Re.Lit "/") (Re.Grp Re.digits))))).

(** [(w)(\d+)/(\d+)] *)
Definition two_segments (w : string) : Re.regex :=
  Re.Seq (Re.Grp (Re.Lit w))
    (Re.Seq (Re.Grp Re.digits)
       (Re.Seq (Re.Lit "/") (Re.Grp Re.digits))).

Definition digit_or_slash (c : ascii) : bool :=
  is_digit c || Ascii.eqb c "/"%char.

(** [((?:Gigabit|Fast)?Ethernet|Eth|GE)[\d/]+] *)
Definition generic_pattern : Re.regex :=
  Re.Seq
    (Re.Grp
       (Re.Alt
          (Re.Seq (Re.Opt (Re.Alt (Re.Lit "Gigabit") (Re.Lit "Fast")))
                  (Re.Lit "Ethernet"))
          (Re.Alt (Re.Lit "Eth") (Re.Lit "GE"))))
    (Re.Rep digit_or_slash 1).

Definition INTERFACE_PATTERNS : list pattern_info :=
  [ {| pi_name := "Huawei GigabitEthernet";
       pi_pattern := three_segments "GigabitEthernet"; pi_format := full |};
    {| pi_name := "Huawei GE Short";
       pi_pattern := three_segments "GE"; pi_format := full |};
    {| pi_name := "Huawei Ethernet";
       pi_pattern := three_segments "Ethernet"; pi_format := full |};
    {| pi_name := "HP Eth";
       pi_pattern := three_segments "Eth"; pi_format := full |};
    {| pi_name := "HP GigabitEthernet";
       pi_pattern := three_segments "GigabitEthernet"; pi_format := full |};
    {| pi_name := "Cisco GigabitEthernet";
       pi_pattern := two_segments "GigabitEthernet"; pi_format := slot_port |};
    {| pi_name := "Cisco FastEthernet";
       pi_pattern := two_segments "FastEthernet"; pi_format := slot_port |};
    {| pi_name := "Generic Interface";
       pi_pattern := generic_pattern; pi_format := generic |} ].

(** The dict returned by [parse_interface_name]. *)
Record parsed_interface := {
  original : string;
  vendor_type : string;
  prefix : string;
  fmt : format;
  stack : Z;
  slot : Z;
  port : Z
}.

(** [int(l[i]) if len(l) > i else 0] *)
Definition int_at_or_zero (l : list string) (i : nat) : result Z :=
  if (i <? length l)%nat then s ← index l i; int s else Ok 0.

(** The body of the loop once [pattern_info] has matched. *)
Definition build_result (p : pattern_info) (interface_name : string)
    (m : Re.mobj) : result parsed_interface :=
  let groups := Re.groups m in
  g0 ← index groups 0;
  match pi_format p with
  | full =>
      g1 ← index groups 1; stack ← int g1;
      g2 ← index groups 2; slot ← int g2;
      g3 ← index groups 3; port ← int g3;
      Ok {| original := interface_name; vendor_type := pi_name p;
            prefix := g0; fmt := full;
            stack := stack; slot := slot; port := port |}
  | slot_port =>
      g1 ← index groups 1; slot ← int g1;
      g2 ← index groups 2; port ← int g2;
      Ok {| original := interface_name; vendor_type := pi_name p;
            prefix := g0; fmt := slot_port;
            stack := 0; slot := slot; port := port |}
  | generic =>
      let numbers := Re.findall false Re.digits interface_name in
      stack ← int_at_or_zero numbers 0;
      slot ← int_at_or_zero numbers 1;
      port ← (if (2 <? length numbers)%nat
              then s ← index numbers 2; int s
              else match numbers with
                   | [] => Ok 0
                   | _ => s ← index numbers (length numbers - 1); int s
                   end);
      Ok {| original := interface_name; vendor_type := pi_name p;
            prefix := g0; fmt := generic;
            stack := stack; slot := slot; port := port |}
  end.

(** The [for pattern_info in ...] loop: the first pattern that matches
    decides; [None] when none does. *)
Fixpoint parse_with (ps : list pattern_info) (interface_name : string)
  : result (option parsed_interface) :=
  match ps with
  | [] => Ok None
  | p :: ps' =>
      match Re.match_ false (pi_pattern p) interface_name with
      | Some m => r ← build_result p interface_name m; Ok (Some r)
      | None => parse_with ps' interface_name
      end
  end.

Definition parse_interface_name (interface_name : string)
  : result (option parsed_interface) :=
  parse_with INTERFACE_PATTERNS interface_name.

(** [f"GE {unit_number}/{slot}/{port}"], or [None] for a parse that
    failed. *)
Definition translate_to_new_format (parsed : option parsed_interface)
    (unit_number : Z) : pyval :=
  match parsed with
  | None => PNone
  | Some p =>
      PStr ("GE " +:+ str unit_number +:+ "/" +:+ str (slot p)
              +:+ "/" +:+ str (port p))
  end.

(** *** What a successful parse looks like *)

Definition PREFIXES : list string :=
  ["GigabitEthernet"; "FastEthernet"; "Ethernet"; "Eth"; "GE"].

(** The value of the [i]-th number of [l], 0 when there is none. *)
Definition number_at (l : list string) (i : nat) : Z :=
  match nth_error l i with
  | Some s => int_digits 0 s
  | None => 0
  end.

Record well_parsed (interface_name : string) (p : parsed_interface)
  : Prop := {
  wp_original : original p = interface_name;
  wp_prefix : In (prefix p) PREFIXES;
  wp_starts : exists rest, interface_name = prefix p +:+ rest;
  wp_stack : 0 <= stack p;
  wp_slot : 0 <= slot p;
  wp_port : 0 <= port p;
  wp_slot_port : fmt p = slot_port -> stack p = 0;
  wp_generic :
    fmt p = generic ->
    let numbers := Re.findall false Re.digits interface_name in
    stack p = number_at numbers 0
    /\ slot p = number_at numbers 1
    /\ port p = number_at numbers
                  (if (2 <? length numbers)%nat then 2
                   else length numbers - 1)
}.

(** A pattern whose match always builds a well-formed result. *)
Definition builds_well (pinfo : pattern_info) : Prop :=
  forall interface_name m,
    Re.match_ false (pi_pattern pinfo) interface_name = Some m ->
    exists p, build_result pinfo interface_name m = Ok p
              /\ well_parsed interface_name p.

(** *** extract_interfaces_from_output and the module-level wrappers *)

(** [INTERFACE_PATTERNS[:-1]] *)
Definition SPECIFIC_PATTERNS : list pattern_info :=
  removelast INTERFACE_PATTERNS.

(** The name rebuilt from the tuple of groups of one match. *)
Definition rebuild (f : format) (m : list string) : result string :=
  match f with
  | full =>
      g0 ← index m 0; g1 ← index m 1; g2 ← index m 2; g3 ← index m 3;
      Ok (g0 +:+ g1 +:+ "/" +:+ g2 +:+ "/" +:+ g3)
  | slot_port =>
      g0 ← index m 0; g1 ← index m 1; g2 ← index m 2;
      Ok (g0 +:+ g1 +:+ "/" +:+ g2)
  | generic => Ok (List.fold_right String.append EmptyString m)
  end.

Fixpoint rebuild_all (f : format) (ms : list (list string))
  : result (list string) :=
  match ms with
  | [] => Ok []
  | m :: ms' => x ← rebuild f m; xs ← rebuild_all f ms'; Ok (x :: xs)
  end.

(** The names found by each pattern in turn, in the order they are
    added to the set. *)
Fixpoint found_by (ps : list pattern_info) (output : string)
  : result (list string) :=
  match ps with
  | [] => Ok []
  | p :: ps' =>
      xs ← rebuild_all (pi_format p)
             (Re.findall_groups false (pi_pattern p) output);
      ys ← found_by ps' output;
      Ok (xs ++ ys)%list
  end.

Definition extract_interfaces_from_output (output : string)
  : result (list string) :=
  xs ← found_by SPECIFIC_PATTERNS output; Ok (sorted_set xs).

(** The module-level [translate_interface_name], kept for backward
    compatibility: no fall-back to the name that was given. *)
Definition translate_interface_name (interface_name : string)
    (unit_number : Z) : result pyval :=
  parsed ← parse_interface_name interface_name;
  Ok (translate_to_new_format parsed unit_number).

End UniversalInterfaceParser.

(* ------------------------------------------------------------------ *)
(** ** interface_translator.py *)

Module InterfaceTranslator.

Import UniversalInterfaceParser.

Definition translate_interface_name (old_name : string) (unit_number : Z)
  : result pyval :=
  parsed ← parse_interface_name old_name;
  match parsed with
  | None => Ok (PStr old_name)
  | Some _ => Ok (translate_to_new_format parsed unit_number)
  end.

(** A Python dict with string keys. *)
Abbreviation dict := (gmap string pyval).

(** [config.get('name', '')] may hold any value; [re.match] inside
    [parse_interface_name] raises [TypeError] unless it is a str. *)
Definition translate_full_config (config : dict) (unit_number : Z)
    (switch_type : string) : result dict :=
  let old_name := default (PStr "") (config !! "name") in
  new_name ← match old_name with
             | PStr s => translate_interface_name s unit_number
             | _ => Raise TypeError
             end;
  Ok (<["original_name" := old_name]> (<["name" := new_name]> config)).

End InterfaceTranslator.

(* ------------------------------------------------------------------ *)
(** ** config_parser.py *)

Module ConfigParser.

(** The dict built by [parse_interface_config]; its keys are fixed by the
    literal that creates it. *)
Record config := {
  name : option string;
  description : option string;
  port_link_type : option string;
  vlan : option Z;
  trunk_vlans : list Z;
  speed : option string;
  duplex : option string;
  shutdown : bool;
  raw_config : list string
}.

Definition initial_config : config :=
  {| name := None; description := None; port_link_type := None;
     vlan := None; trunk_vlans := []; speed := None; duplex := None;
     shutdown := false; raw_config := [] |}.

Definition set_name (c : config) (v : string) : config :=
  {| name := Some v; description := description c;
     port_link_type := port_link_type c; vlan := vlan c;
     trunk_vlans := trunk_vlans c; speed := speed c; duplex := duplex c;
     shutdown := shutdown c; raw_config := raw_config c |}.

Definition set_description (c : config) (v : string) : config :=
  {| name := name c; description := Some v;
     port_link_type := port_link_type c; vlan := vlan c;
     trunk_vlans := trunk_vlans c; speed := speed c; duplex := duplex c;
     shutdown := shutdown c; raw_config := raw_config c |}.

Definition set_port_link_type (c : config) (v : string) : config :=
  {| name := name c; description := description c;
     port_link_type := Some v; vlan := vlan c;
     trunk_vlans := trunk_vlans c; speed := speed c; duplex := duplex c;
     shutdown := shutdown c; raw_config := raw_config c |}.

Definition set_vlan (c : config) (v : Z) : config :=
  {| name := name c; description := description c;
     port_link_type := port_link_type c; vlan := Some v;
     trunk_vlans := trunk_vlans c; speed := speed c; duplex := duplex c;
     shutdown := shutdown c; raw_config := raw_config c |}.

Definition set_trunk_vlans (c : config) (v : list Z) : config :=
  {| name := name c; description := description c;
     port_link_type := port_link_type c; vlan := vlan c;
     trunk_vlans := v; speed := speed c; duplex := duplex c;
     shutdown := shutdown c; raw_config := raw_config c |}.

Definition set_speed (c : config) (v : string) : config :=
  {| name := name c; description := description c;
     port_link_type := port_link_type c; vlan := vlan c;
     trunk_vlans := trunk_vlans c; speed := Some v; duplex := duplex c;
     shutdown := shutdown c; raw_config := raw_config c |}.

Definition set_duplex (c : config) (v : string) : config :=
  {| name := name c; description := description c;
     port_link_type := port_link_type c; vlan := vlan c;
     trunk_vlans := trunk_vlans c; speed := speed c; duplex := Some v;
     shutdown := shutdown c; raw_config := raw_config c |}.

Definition set_shutdown (c : config) : config :=
  {| name := name c; description := description c;
     port_link_type := port_link_type c; vlan := vlan c;
     trunk_vlans := trunk_vlans c; speed := speed c; duplex := duplex c;
     shutdown := true; raw_config := raw_config c |}.

Definition append_raw_config (c : config) (line : string) : config :=
  {| name := name c; description := description c;
     port_link_type := port_link_type c; vlan := vlan c;
     trunk_vlans := trunk_vlans c; speed := speed c; duplex := duplex c;
     shutdown := shutdown c; raw_config := raw_config c ++ [line] |}.

(** [not config['port_link_type']] *)
Definition link_type_unset (c : config) : bool :=
  match port_link_type c with
  | None => true
  | Some s => String.eqb s ""
  end.

(** [vlan\s+(\d+)] *)
Definition vlan_re : Re.regex :=
  Re.Seq (Re.Lit "vlan") (Re.Seq (Re.Rep is_space 1) (Re.Grp Re.digits)).

(** [list(range(lo, hi))] *)
Definition range (lo hi : Z) : list Z :=
  List.map (fun k => lo + Z.of_nat k) (seq 0 (Z.to_nat (hi - lo))).

(** [[int(v) for v in l]] *)
Fixpoint ints (l : list string) : result (list Z) :=
  match l with
  | [] => Ok []
  | v :: l' => z ← int v; zs ← ints l'; Ok (z :: zs)
  end.

(** The [if ... elif ...] chain on one stripped line. *)
Definition classify (c : config) (line : string) : result config :=
  if startswith line "interface " then
    w ← index (split_ws line) 1; Ok (set_name c w)
  else if startswith line "description " then
    Ok (set_description c (replace line "description " ""))
  else if contains "port link-type" line then
    if contains "access" line then Ok (set_port_link_type c "access")
    else if contains "trunk" line then Ok (set_port_link_type c "trunk")
    else Ok c
  else if contains "port default vlan" line
          || contains "port access vlan" line then
    match Re.search false vlan_re line with
    | Some m =>
        g ← index (Re.groups m) 0;
        v ← int g;
        let c1 := set_vlan c v in
        Ok (if link_type_unset c1 then set_port_link_type c1 "access" else c1)
    | None => Ok c
    end
  else if contains "port trunk allow-pass vlan" line
          || contains "port trunk permit vlan" line then
    let c1 := if link_type_unset c then set_port_link_type c "trunk" else c in
    if contains "vlan all" (lower line) then
      Ok (set_trunk_vlans c1 (range 2 4095))
    else
      vs ← ints (Re.findall false Re.digits line);
      Ok (set_trunk_vlans c1 vs)
  else if startswith line "speed " then
    w ← index (split_ws line) 1; Ok (set_speed c w)
  else if startswith line "duplex " then
    w ← index (split_ws line) 1; Ok (set_duplex c w)
  else if String.eqb line "shutdown" then
    Ok (set_shutdown c)
  else Ok c.

(** One turn of the [for line in lines] loop. *)
Definition parse_line (c : config) (raw : string) : result config :=
  let line := strip raw in
  c1 ← classify c line;
  Ok (if negb (String.eqb line "") && negb (startswith line "#")
      then append_raw_config c1 line else c1).

Fixpoint parse_lines (c : config) (lines : list string) : result config :=
  match lines with
  | [] => Ok c
  | l :: lines' => c1 ← parse_line c l; parse_lines c1 lines'
  end.

Definition newline : ascii := "010"%char.


(** The stripped line is one the [elif] chain takes as a trunk-permit
    line: it holds one of the two spellings and no earlier test of the
    chain claims it. *)
Definition is_trunk_permit_line (line : string) : bool :=
  negb (startswith line "interface ")
  && negb (startswith line "description ")
  && negb (contains "port link-type" line)
  && negb (contains "port default vlan" line
           || contains "port access vlan" line)
  && (contains "port trunk allow-pass vlan" line
      || contains "port trunk permit vlan" line).

Definition parse_interface_config (output : string) : result config :=
  parse_lines initial_config (split_on newline output).

Definition opt_str (o : option string) : pyval :=
  match o with Some s => PStr s | None => PNone end.

Definition opt_int (o : option Z) : pyval :=
  match o with Some z => PInt z | None => PNone end.

(** The record seen as the Python dict it is. *)
Definition to_dict (c : config) : InterfaceTranslator.dict :=
  <["name" := opt_str (name c)]>
  (<["description" := opt_str (description c)]>
  (<["port_link_type" := opt_str (port_link_type c)]>
  (<["vlan" := opt_int (vlan c)]>
  (<["trunk_vlans" := PList (List.map PInt (trunk_vlans c))]>
  (<["speed" := opt_str (speed c)]>
  (<["duplex" := opt_str (duplex c)]>
  (<["shutdown" := PBool (shutdown c)]>
  (<["raw_config" := PList (List.map PStr (raw_config c))]> ∅)))))))).

(** *** parse_interface_brief and extract_interface_number *)

Record brief_entry := {
  brief_name : string;
  physical_status : string;
  protocol_status : string
}.

Definition word_or_slash (c : ascii) : bool :=
  Re.is_word c || Ascii.eqb c "/"%char.

(** [^([\w/]+)\s+(\w+)\s+(\w+)]; the anchor is where [re.match] starts
    anyway. *)
Definition brief_line_re : Re.regex :=
  Re.Seq (Re.Grp (Re.Rep word_or_slash 1))
    (Re.Seq (Re.Rep is_space 1)
       (Re.Seq (Re.Grp (Re.Rep Re.is_word 1))
          (Re.Seq (Re.Rep is_space 1) (Re.Grp (Re.Rep Re.is_word 1))))).

(** The inner [for intf_name in interface_names] loop on one stripped
    line: the first name the line starts with decides, then [break]. *)
Fixpoint brief_line (interface_names : list string) (line_strip : string)
  : result (option brief_entry) :=
  match interface_names with
  | [] => Ok None
  | intf_name :: names' =>
      if startswith line_strip intf_name then
        match Re.match_ false brief_line_re line_strip with
        | Some m =>
            g1 ← index (Re.groups m) 0;
            g2 ← index (Re.groups m) 1;
            g3 ← index (Re.groups m) 2;
            Ok (Some {| brief_name := g1; physical_status := g2;
                        protocol_status := g3 |})
        | None => Ok None
        end
      else brief_line names' line_strip
  end.

Fixpoint brief_lines (interface_names : list string) (lines : list string)
  : result (list brief_entry) :=
  match lines with
  | [] => Ok []
  | line :: lines' =>
      r ← brief_line interface_names (strip line);
      rest ← brief_lines interface_names lines';
      Ok (match r with Some e => e :: rest | None => rest end)
  end.

Definition parse_interface_brief (output : string)
  : result (list brief_entry) :=
  interface_names ←
    UniversalInterfaceParser.extract_interfaces_from_output output;
  brief_lines interface_names (split_on newline output).

(** What a pattern of the table finds is a name: made of letters,
    digits and slashes, rebuilt from its groups as it stood, and matched
    by the same pattern whatever follows it. *)
Definition finds_names (pinfo : UniversalInterfaceParser.pattern_info)
  : Prop :=
  forall w gs,
    Re.matches false (UniversalInterfaceParser.pi_pattern pinfo) w gs ->
    UniversalInterfaceParser.rebuild
      (UniversalInterfaceParser.pi_format pinfo) gs = Ok w
    /\ forall_chars word_or_slash w = true
    /\ forall r, exists m,
         Re.match_ false (UniversalInterfaceParser.pi_pattern pinfo)
           (w +:+ r) = Some m.

(** A name some pattern of [ps] finds. *)
Definition found_name (ps : list UniversalInterfaceParser.pattern_info)
    (x : string) : Prop :=
  forall_chars word_or_slash x = true
  /\ exists pinfo, In pinfo ps
       /\ forall r, exists m,
            Re.match_ false (UniversalInterfaceParser.pi_pattern pinfo)
              (x +:+ r) = Some m.

(** [(stack, slot, port)], or [None] for [(None, None, None)]. *)
Definition extract_interface_number (interface_name : string)
  : result (option (Z * Z * Z)) :=
  parsed ← UniversalInterfaceParser.parse_interface_name interface_name;
  Ok (match parsed with
      | Some p => Some (UniversalInterfaceParser.stack p,
                        UniversalInterfaceParser.slot p,
                        UniversalInterfaceParser.port p)
      | None => None
      end).

End ConfigParser.

(* ------------------------------------------------------------------ *)
(** ** template_generator.py *)

Module TemplateGenerator.

Import ConfigParser.

(** How an f-string shows an optional str. *)
Definition show_opt (o : option string) : string :=
  match o with Some s => s | None => "None" end.

(** The lines one interface adds to [config_lines].  The interface
    dicts are those the block parser builds. *)
Definition interface_lines (iface : config) : list string :=
  ["interface " +:+ show_opt (name iface)]
  ++ (if truthy_str (description iface)
      then [" description " +:+ show_opt (description iface)] else [])
  ++ (if truthy_str (port_link_type iface)
      then [" port link-type " +:+ show_opt (port_link_type iface)] else [])
  ++ (match port_link_type iface with
      | Some t =>
          if String.eqb t "access" && truthy_int (vlan iface)
          then [" port default vlan " +:+ str (default 0 (vlan iface))]
          else []
      | None => []
      end)
  ++ (match port_link_type iface with
      | Some t =>
          if String.eqb t "trunk"
             && match trunk_vlans iface with [] => false | _ => true end
          then [" port trunk allow-pass vlan "
                  +:+ join " " (List.map str (trunk_vlans iface))]
          else []
      | None => []
      end)
  ++ (if truthy_str (speed iface)
      then [" speed " +:+ show_opt (speed iface)] else [])
  ++ (if truthy_str (duplex iface)
      then [" duplex " +:+ show_opt (duplex iface)] else [])
  ++ [" quit"; ""].

Definition config_lines (interfaces : list config) : list string :=
  ["system-view"; ""]
  ++ List.flat_map interface_lines interfaces
  ++ ["quit"; "save"; "y"].

Definition generate_simple_config (interfaces : list config) : string :=
  join (String newline EmptyString) (config_lines interfaces).

(** *** Records the generated text gives back *)

Definition not_newline (c : ascii) : bool := negb (Ascii.eqb c newline).

(** A word: not empty, no whitespace in it. *)
Definition is_token (s : string) : bool :=
  negb (String.eqb s "") && forall_chars no_space s.

Definition token_or_none (o : option string) : bool :=
  match o with Some s => is_token s | None => true end.

(** A description that stands on its line as it is: not empty, no
    blank at either end, no line break, and the keyword [description ]
    not in it. *)
Definition plain_description (d : string) : bool :=
  negb (String.eqb d "") && String.eqb (strip d) d
  && forall_chars not_newline d
  && negb (contains "description " d).

(** A record [generate_simple_config] writes in full: the name, the
    speed and the duplex are words, the description is plain, the link
    type is [access], [trunk] or absent, an access port has a positive
    VLAN or none and no trunk list, a trunk port has no access VLAN and
    a list of VLANs that are not negative, a port without link type has
    neither. *)
Definition written_in_full (iface : config) : bool :=
  match name iface with Some n => is_token n | None => false end
  && match description iface with
     | Some d => plain_description d
     | None => true
     end
  && match port_link_type iface with
     | None =>
         match vlan iface with None => true | Some _ => false end
         && match trunk_vlans iface with [] => true | _ => false end
     | Some t =>
         (String.eqb t "access"
          && match vlan iface with Some v => 0 <? v | None => true end
          && match trunk_vlans iface with [] => true | _ => false end)
         || (String.eqb t "trunk"
             && match vlan iface with None => true | Some _ => false end
             && forallb (fun z => 0 <=? z) (trunk_vlans iface))
     end
  && token_or_none (speed iface) && token_or_none (duplex iface).

End TemplateGenerator.

(* ------------------------------------------------------------------ *)
(** ** routes.py *)

Module Routes.

Import UniversalInterfaceParser.

(** *** process_stack: the per-interface loop *)

(** The two [continue] guards met by an interface that parsed. *)
Definition skipped_as_uplink (iface_name : string) (parsed : parsed_interface)
    (port_count : Z) : bool :=
  (port parsed >? port_count)
  || ((port_count =? 8)
      && startswith (lower iface_name) "gigabitethernet").

(** The guard of [extract_config], the single-switch route. *)
Definition skipped_by_extract_config (parsed : parsed_interface)
    (max_port : Z) : bool :=
  port parsed >? max_port.

Section ProcessStack.

(** [ssh.get_interface_config]: the transport, which answers with text or
    raises. *)
Variable get_interface_config : string -> result string.

(** The [try] block: fetch, parse, translate.  [None] when the
    [except Exception] clause swallowed a failure. *)
Definition fetch_and_translate (iface_name : string) (unit_number : Z)
    (port_count : Z) : option InterfaceTranslator.dict :=
  match
    (config_output ← get_interface_config iface_name;
     config ← ConfigParser.parse_interface_config config_output;
     InterfaceTranslator.translate_full_config
       (ConfigParser.to_dict config) unit_number (str port_count))
  with
  | Ok config => Some config
  | Raise _ => None
  end.

(** What one interface of the brief listing adds to [switch_interfaces]. *)
Definition process_interface (iface_name : string) (unit_number : Z)
    (port_count : Z) : result (option InterfaceTranslator.dict) :=
  parsed ← parse_interface_name iface_name;
  match parsed with
  | None => Ok None
  | Some p =>
      if skipped_as_uplink iface_name p port_count then Ok None
      else Ok (fetch_and_translate iface_name unit_number port_count)
  end.

Fixpoint process_interfaces (names : list string) (unit_number : Z)
    (port_count : Z) : result (list InterfaceTranslator.dict) :=
  match names with
  | [] => Ok []
  | n :: names' =>
      r ← process_interface n unit_number port_count;
      rest ← process_interfaces names' unit_number port_count;
      Ok (match r with Some c => c :: rest | None => rest end)
  end.

End ProcessStack.

(** *** parse_layer3_excel: the per-row loop *)

(** A spreadsheet cell as [values_only=True] gives it: empty, text,
    whole number or boolean. *)
Inductive cell :=
| CNone
| CStr (s : string)
| CInt (z : Z)
| CBool (b : bool).

Definition cell_truthy (c : cell) : bool :=
  match c with
  | CNone => false
  | CStr s => negb (String.eqb s "")
  | CInt z => negb (z =? 0)
  | CBool b => b
  end.

(** [str(c)] *)
Definition cell_str (c : cell) : string :=
  match c with
  | CNone => "None"
  | CStr s => s
  | CInt z => str z
  | CBool true => "True"
  | CBool false => "False"
  end.

(** [str(c).strip() if c else None] *)
Definition cell_text (c : cell) : option string :=
  if cell_truthy c then Some (strip (cell_str c)) else None.

(** Truth of an optional str: neither [None] nor empty. *)
Definition nonempty (o : option string) : bool :=
  match o with
  | Some s => negb (String.eqb s "")
  | None => false
  end.

Record mapping := {
  old_port : option string;
  new_port : string;
  description : option string;
  eth_trunk : option Z;
  link_type : option string;
  vlan : option Z;
  pvid : option Z;
  trunk_vlans : option (list Z)
}.

(** [eth-trunk\s*(\d+)] *)
Definition eth_trunk_re : Re.regex :=
  Re.Seq (Re.Lit "eth-trunk") (Re.Seq (Re.Rep is_space 0) (Re.Grp Re.digits)).

(** [pvid\s+vlan\s+(\d+)] *)
Definition pvid_re : Re.regex :=
  Re.Seq (Re.Lit "pvid")
    (Re.Seq (Re.Rep is_space 1)
       (Re.Seq (Re.Lit "vlan")
          (Re.Seq (Re.Rep is_space 1) (Re.Grp Re.digits)))).

(** [(\d+)] *)
Definition number_re : Re.regex := Re.Grp Re.digits.

(** [int(m.group(1))] for the first match of [r] in [s], if any. *)
Definition search_int (ic : bool) (r : Re.regex) (s : string)
  : result (option Z) :=
  match Re.search ic r s with
  | Some m => g ← index (Re.groups m) 0; z ← int g; Ok (Some z)
  | None => Ok None
  end.

(** "Parse eth-trunk number" *)
Definition parse_eth_trunk (eth_trunk : option string) : result (option Z) :=
  match eth_trunk with
  | Some e =>
      if negb (String.eqb e "") && negb (String.eqb e "nan")
      then search_int true eth_trunk_re e else Ok None
  | None => Ok None
  end.

(** "Parse link type" *)
Definition parse_link_type (link_type : option string) : option string :=
  if nonempty link_type
     && contains "trunk" (lower (default "" link_type))
  then Some "trunk"
  else if nonempty link_type
          && contains "access" (lower (default "" link_type))
  then Some "access"
  else None.

(** "Parse VLAN from config" *)
Definition parse_vlan (config1 : option string) : result (option Z) :=
  match config1 with
  | Some c =>
      if negb (String.eqb c "")
      then search_int false ConfigParser.vlan_re c else Ok None
  | None => Ok None
  end.

(** "Check for pvid" *)
Definition parse_pvid (config1 : option string) : result (option Z) :=
  match config1 with
  | Some c =>
      if negb (String.eqb c "") && contains "pvid" (lower c)
      then search_int false pvid_re c else Ok None
  | None => Ok None
  end.

(** "Check for specific trunk vlans (not 2 to 4094)" *)
Definition parse_trunk_vlans (config2 : option string)
  : result (option (list Z)) :=
  match config2 with
  | Some c =>
      if negb (String.eqb c "") && contains "allow-pass" (lower c)
      then
        if negb (contains "2 to 4094" c)
        then
          let vlans_match := Re.findall false number_re c in
          match vlans_match with
          | [] => Ok None
          | _ => vs ← ConfigParser.ints vlans_match; Ok (Some vs)
          end
        else Ok None
      else Ok None
  | None => Ok None
  end.

(** The row is passed over: no new port, or not an interface
    declaration. *)
Definition skip_row (new_port : option string) : bool :=
  negb (nonempty new_port)
  || String.eqb (default "" new_port) "nan"
  || negb (startswith (default "" new_port) "interface").

(** The body of the row loop once the cells are read: [None] for a row
    passed over by [continue], else the mapping appended. *)
Definition row_mapping
    (old_port new_port description eth_trunk link_type config1 config2
       : option string) : result (option mapping) :=
  if skip_row new_port then Ok None
  else
    let new_port_name :=
      strip (replace (default "" new_port) "interface " "") in
    eth_trunk_num ← parse_eth_trunk eth_trunk;
    let port_link_type := parse_link_type link_type in
    vlan ← parse_vlan config1;
    pvid ← parse_pvid config1;
    trunk_vlans ← parse_trunk_vlans config2;
    Ok (Some {| old_port := old_port; new_port := new_port_name;
                description :=
                  match description with
                  | Some d => if String.eqb d "nan" then None else Some d
                  | None => None
                  end;
                eth_trunk := eth_trunk_num;
                link_type := port_link_type;
                vlan := vlan; pvid := pvid;
                trunk_vlans := trunk_vlans |}).

(** One turn of the row loop: columns 1 to 6 are read unguarded, column
    7 only if the row has one. *)
Definition parse_row (row : list cell) : result (option mapping) :=
  c1 ← index row 1;
  c2 ← index row 2;
  c3 ← index row 3;
  c4 ← index row 4;
  c5 ← index row 5;
  c6 ← index row 6;
  config2 ← (if (7 <? length row)%nat
             then c7 ← index row 7; Ok (cell_text c7) else Ok None);
  row_mapping (cell_text c1) (cell_text c2) (cell_text c3) (cell_text c4)
    (cell_text c5) (cell_text c6) config2.



(** *** process_stack: the loop over the switches *)

(** An element of [switches]: a JSON object, any key of which can be
    missing.  [unit] and [port_count] are ints when they are there. *)
Record switch := {
  host : option string;
  password : option string;
  unit : option Z;
  port_count : option Z
}.

(** What a call of [SSHManager] gives: a value, or the [Exception] it
    raises, with its message. *)
Inductive answer (A : Type) :=
| Answered (a : A)
| Failed (msg : string).

Arguments Answered {A} a.
Arguments Failed {A} msg.

(** [SSHManager] as the route uses it.  [W] is the state of the network,
    which every call may change: [connect] is [__enter__] and answers
    with the connection method, [disconnect] is [__exit__]. *)
Record session_layer (W : Type) := {
  connect : string -> string -> string -> W -> answer string * W;
  get_interface_brief : string -> W -> answer string * W;
  get_interface_config : string -> string -> W -> answer string * W;
  disconnect : string -> W -> answer Datatypes.unit * W
}.

Arguments connect {W} s _ _ _ _.
Arguments get_interface_brief {W} s _ _.
Arguments get_interface_config {W} s _ _ _.
Arguments disconnect {W} s _ _.

(** What ends the work on a switch: [sw[k]] for a key that is missing,
    an exception of the session layer, an exception of the parsers. *)
Inductive failure :=
| MissingKey (k : string)
| SessionFailure (msg : string)
| ParserFailure (e : exn).

(** An entry of [stack_switches]. *)
Record stack_switch := {
  stack_unit : Z;
  switch_ip : string;
  sw_port_count : Z;
  interface_count : nat;
  vlans : gset Z;
  connection_method : option string;
  error : option failure
}.

(** [all_interfaces] and [unique_vlans], shared by all the switches. *)
Record stack_state := {
  all_interfaces : list InterfaceTranslator.dict;
  unique_vlans : gset Z
}.

(** The [vlan] a translated record adds to [unique_vlans].  The record
    comes from the block parser, whose [vlan] is an int or [None]. *)
Definition vlan_to_add (config : InterfaceTranslator.dict) : option Z :=
  match config !! "vlan" with
  | Some (PInt z) => if z =? 0 then None else Some z
  | _ => None
  end.

Definition add_interface (st : stack_state)
    (config : InterfaceTranslator.dict) : stack_state :=
  {| all_interfaces := all_interfaces st ++ [config];
     unique_vlans := match vlan_to_add config with
                     | Some z => {[ z ]} ∪ unique_vlans st
                     | None => unique_vlans st
                     end |}.

(** What the inner [try] makes of the answer of the switch: the block
    parsed and translated, or [None] when [except Exception] swallowed a
    failure. *)
Definition translated_block (config_output : string) (unit_number pc : Z)
  : option InterfaceTranslator.dict :=
  match
    (config ← ConfigParser.parse_interface_config config_output;
     InterfaceTranslator.translate_full_config
       (ConfigParser.to_dict config) unit_number (str pc))
  with
  | Ok config => Some config
  | Raise _ => None
  end.

(** The entry appended by the outer [except]. *)
Definition failed_switch (sw : switch) (e : failure) : stack_switch :=
  {| stack_unit := default 0 (unit sw);
     switch_ip := default "unknown" (host sw);
     sw_port_count := default 48 (port_count sw);
     interface_count := 0; vlans := ∅;
     connection_method := None; error := Some e |}.

Section ProcessSwitches.

Context {W : Type}.
Variable ssh : session_layer W.

(** The loop over the brief listing of one switch.  It returns
    [switch_interfaces], the shared state, and what left the loop, if
    anything did; what was appended before stays appended. *)
Fixpoint stack_interfaces (ip : string) (unit_number pc : Z)
    (names : list string) (switch_interfaces : list InterfaceTranslator.dict)
    (st : stack_state) (w : W)
  : list InterfaceTranslator.dict * stack_state * option failure * W :=
  match names with
  | [] => (switch_interfaces, st, None, w)
  | n :: names' =>
      match parse_interface_name n with
      | Raise e => (switch_interfaces, st, Some (ParserFailure e), w)
      | Ok None =>
          stack_interfaces ip unit_number pc names' switch_interfaces st w
      | Ok (Some parsed) =>
          if skipped_as_uplink n parsed pc then
            stack_interfaces ip unit_number pc names' switch_interfaces st w
          else
            match get_interface_config ssh ip n w with
            | (Failed _, w1) =>
                stack_interfaces ip unit_number pc names' switch_interfaces
                  st w1
            | (Answered config_output, w1) =>
                match translated_block config_output unit_number pc with
                | None =>
                    stack_interfaces ip unit_number pc names'
                      switch_interfaces st w1
                | Some config =>
                    stack_interfaces ip unit_number pc names'
                      (switch_interfaces ++ [config])
                      (add_interface st config) w1
                end
            end
      end
  end.

(** The body of the [with] block. *)
Definition session_body (ip : string) (unit_number pc : Z) (st : stack_state)
    (w : W)
  : list InterfaceTranslator.dict * stack_state * option failure * W :=
  match get_interface_brief ssh ip w with
  | (Failed msg, w1) => ([], st, Some (SessionFailure msg), w1)
  | (Answered brief_output, w1) =>
      match ConfigParser.parse_interface_brief brief_output with
      | Raise e => ([], st, Some (ParserFailure e), w1)
      | Ok interfaces_list =>
          stack_interfaces ip unit_number pc
            (List.map ConfigParser.brief_name interfaces_list) [] st w1
      end
  end.

(** One turn of [for sw in switches].  Leaving the [with] block closes
    the session, also when the body raised; an exception of the closing
    takes the place of the one of the body. *)
Definition process_switch (username : string) (sw : switch)
    (st : stack_state) (w : W) : stack_state * stack_switch * W :=
  match host sw, password sw, unit sw with
  | None, _, _ => (st, failed_switch sw (MissingKey "host"), w)
  | Some _, None, _ => (st, failed_switch sw (MissingKey "password"), w)
  | Some _, Some _, None => (st, failed_switch sw (MissingKey "unit"), w)
  | Some ip, Some pw, Some u =>
      let pc := default 48 (port_count sw) in
      match connect ssh ip username pw w with
      | (Failed msg, w1) => (st, failed_switch sw (SessionFailure msg), w1)
      | (Answered method, w1) =>
          let '(switch_interfaces, st1, raised, w2) :=
            session_body ip u pc st w1 in
          match disconnect ssh ip w2 with
          | (Failed msg, w3) =>
              (st1, failed_switch sw (SessionFailure msg), w3)
          | (Answered _, w3) =>
              match raised with
              | Some e => (st1, failed_switch sw e, w3)
              | None =>
                  (st1,
                   {| stack_unit := u; switch_ip := ip;
                      sw_port_count := pc;
                      interface_count := length switch_interfaces;
                      vlans := unique_vlans st1;
                      connection_method := Some method;
                      error := None |},
                   w3)
              end
          end
      end
  end.

Fixpoint process_switches (username : string) (switches : list switch)
    (st : stack_state) (w : W) : stack_state * list stack_switch * W :=
  match switches with
  | [] => (st, [], w)
  | sw :: switches' =>
      let '(st1, entry, w1) := process_switch username sw st w in
      let '(st2, entries, w2) := process_switches username switches' st1 w1 in
      (st2, entry :: entries, w2)
  end.

End ProcessSwitches.

Record stack_summary := {
  stack_name : string;
  switch_count : nat;
  total_interfaces : nat;
  summary_vlans : list Z;
  switches : list stack_switch
}.

(** [process_stack]: [None] is the answer 400 to an empty list of
    switches; else the interfaces kept for the next step and the
    summary. *)
Definition process_stack {W : Type} (ssh : session_layer W)
    (name username : string) (sws : list switch) (w : W)
  : option (list InterfaceTranslator.dict * stack_summary) * W :=
  match sws with
  | [] => (None, w)
  | _ =>
      let '(st, entries, w') :=
        process_switches ssh username sws
          {| all_interfaces := []; unique_vlans := ∅ |} w in
      (Some (all_interfaces st,
             {| stack_name := name;
                switch_count := length sws;
                total_interfaces := length (all_interfaces st);
                summary_vlans := sorted_ints (elements (unique_vlans st));
                switches := entries |}),
       w')
  end.

(** The sum of the [interface_count] of the entries. *)
Definition counted (entries : list stack_switch) : nat :=
  List.fold_right (fun e n => (interface_count e + n)%nat) O entries.





(** *** generate_layer3_config *)



(** The lines under [else:], for a port that is in no Eth-Trunk. *)
Definition link_lines (m : mapping) : list string :=
  match link_type m with
  | Some t =>
      if String.eqb t "trunk" then
        [" port link-type trunk"]
        ++ (if truthy_int (pvid m)
            then [" port trunk pvid vlan " +:+ str (default 0 (pvid m))]
            else [])
        ++ (match trunk_vlans m with
            | Some (v :: vs) =>
                [" port trunk allow-pass vlan "
                   +:+ join " " (List.map str (v :: vs))]
            | _ => [" port trunk allow-pass vlan 2 to 4094"]
            end)
      else if String.eqb t "access" then
        [" port link-type access"]
        ++ (if truthy_int (vlan m)
            then [" port default vlan " +:+ str (default 0 (vlan m))]
            else [])
      else []
  | None => []
  end.




Definition eth_trunk_lines (trunk_num : Z) : list string :=
  ["#"; "interface Eth-Trunk" +:+ str trunk_num; " port link-type trunk";
   " port trunk allow-pass vlan 2 to 4094"; " mode lacp"; " q"].



(** How many of [lines] are the line [l]. *)
Definition count_line (l : string) (lines : list string) : nat :=
  length (List.filter (String.eqb l) lines).


End Routes.

(* ================================================================== *)
(** * Properties *)

(* ------------------------------------------------------------------ *)
(** ** Strings *)

Section StringFacts.

Lemma append_nil_r (s : string) : s +:+ "" = s.
Proof. induction s as [|c s IH]; simpl; [reflexivity | now rewrite IH]. Qed.

Lemma append_assoc (a b c : string) : (a +:+ b) +:+ c = a +:+ (b +:+ c).
Proof. induction a as [|x a IH]; simpl; [reflexivity | now rewrite IH]. Qed.

Lemma length_append (a b : string) :
  String.length (a +:+ b) = (String.length a + String.length b)%nat.
Proof. induction a as [|x a IH]; simpl; [reflexivity | now rewrite IH]. Qed.

Lemma forall_chars_append p (a b : string) :
  forall_chars p (a +:+ b) = forall_chars p a && forall_chars p b.
Proof.
  induction a as [|x a IH]; simpl; [reflexivity |].
  rewrite IH. now rewrite andb_assoc.
Qed.

Lemma strip_prefix_append (p r : string) : strip_prefix p (p +:+ r) = Some r.
Proof.
  induction p as [|a p IH]; simpl; [reflexivity |].
  now rewrite Ascii.eqb_refl.
Qed.

Lemma strip_prefix_Some (p s r : string) :
  strip_prefix p s = Some r -> s = p +:+ r.
Proof.
  revert s. induction p as [|a p IH]; intros s H; simpl in *.
  - congruence.
  - destruct s as [|b s]; [discriminate |].
    destruct (Ascii.eqb_spec a b) as [->|]; [|discriminate].
    simpl. f_equal. now apply IH.
Qed.

Lemma startswith_append (p r : string) : startswith (p +:+ r) p = true.
Proof. unfold startswith. now rewrite strip_prefix_append. Qed.

Lemma startswith_true (s p : string) :
  startswith s p = true -> exists r, s = p +:+ r.
Proof.
  unfold startswith. destruct (strip_prefix p s) as [r|] eqn:E; [|discriminate].
  intros _. exists r. now apply strip_prefix_Some.
Qed.

Lemma substring_0_append (w r : string) :
  substring 0 (String.length w) (w +:+ r) = w.
Proof. induction w as [|c w IH]; simpl; [now destruct r | now rewrite IH]. Qed.

End StringFacts.

(* ------------------------------------------------------------------ *)
(** ** The matcher *)

Section MatcherFacts.

Import Re.

Lemma consumed_append (w r : string) : consumed (w +:+ r) r = w.
Proof.
  unfold consumed. rewrite length_append.
  replace (String.length w + String.length r - String.length r)%nat
    with (String.length w) by lia.
  apply substring_0_append.
Qed.

Lemma lit_prefix_split ic (l s rest : string) :
  lit_prefix ic l s = Some rest ->
  exists w, s = w +:+ rest /\ lit_prefix ic l w = Some "".
Proof.
  revert s. induction l as [|a l IH]; intros s H; simpl in H.
  - exists "". split; [now inversion H | reflexivity].
  - destruct s as [|b s]; [discriminate |].
    destruct (Ascii.eqb (fold_case ic a) (fold_case ic b)) eqn:E;
      [|discriminate].
    destruct (IH _ H) as (w & -> & Hw).
    exists (String b w). split; [reflexivity |].
    simpl. now rewrite E.
Qed.

Lemma lit_prefix_exact (l w : string) :
  lit_prefix false l w = Some "" -> w = l.
Proof.
  revert w. induction l as [|a l IH]; intros w H; simpl in H.
  - congruence.
  - destruct w as [|b w]; [discriminate |].
    simpl in H. destruct (Ascii.eqb_spec a b) as [->|]; [|discriminate].
    f_equal. now apply IH.
Qed.

Lemma lit_prefix_length ic (l w : string) :
  lit_prefix ic l w = Some "" -> String.length w = String.length l.
Proof.
  revert w. induction l as [|a l IH]; intros w H; simpl in H.
  - now inversion H.
  - destruct w as [|b w]; [discriminate |].
    destruct (Ascii.eqb _ _); [|discriminate].
    simpl. f_equal. now apply IH.
Qed.

Lemma reps_sound p (s rest : string) (k : nat) :
  In (k, rest) (reps p s) ->
  exists w, s = w +:+ rest /\ String.length w = k
            /\ forall_chars p w = true.
Proof.
  revert k. induction s as [|c s IH]; intros k H; simpl in H.
  - destruct H as [H|[]]. inversion H; subst. now exists "".
  - destruct (p c) eqn:Epc.
    + apply in_app_or in H. destruct H as [H|[H|[]]].
      * apply in_map_iff in H. destruct H as ([k' r'] & Heq & Hin).
        simpl in Heq. inversion Heq; subst.
        destruct (IH _ Hin) as (w & -> & Hl & Hp).
        exists (String c w). simpl. now rewrite Epc, Hp, Hl.
      * inversion H; subst. now exists "".
    + destruct H as [H|[]]. inversion H; subst. now exists "".
Qed.

(** Every way of matching that [run] lists consumes a prefix of the
    subject, only adds groups, and is a match in the sense of [matches]. *)
Lemma run_sound ic (r : regex) :
  forall s caps rest caps',
    In (rest, caps') (run ic r s caps) ->
    exists w gs, s = w +:+ rest /\ caps' = (caps ++ gs)%list
                 /\ matches ic r w gs.
Proof.
  induction r as [l | p lo | r1 IH1 r2 IH2 | r1 IH1 r2 IH2 | r1 IH1 | r1 IH1];
    intros s caps rest caps' H; simpl in H.
  - destruct (lit_prefix ic l s) as [rest0|] eqn:E; [|contradiction].
    destruct H as [H|[]]. inversion H; subst.
    destruct (lit_prefix_split _ _ _ _ E) as (w & -> & Hw).
    exists w, []. rewrite List.app_nil_r. repeat split. now constructor.
  - apply in_map_iff in H. destruct H as ([k r'] & Heq & Hin).
    simpl in Heq. inversion Heq; subst.
    apply filter_In in Hin. destruct Hin as [Hin Hlo]. simpl in Hlo.
    destruct (reps_sound _ _ _ _ Hin) as (w & -> & Hl & Hp).
    exists w, []. rewrite List.app_nil_r. repeat split.
    constructor; [assumption|]. apply Nat.leb_le in Hlo. lia.
  - apply in_flat_map in H. destruct H as ([s1 c1] & H1 & H2). simpl in H2.
    destruct (IH1 _ _ _ _ H1) as (w1 & g1 & -> & -> & M1).
    destruct (IH2 _ _ _ _ H2) as (w2 & g2 & -> & -> & M2).
    exists (w1 +:+ w2), (g1 ++ g2)%list.
    rewrite append_assoc, <- List.app_assoc. repeat split. now constructor.
  - apply in_app_or in H. destruct H as [H|H].
    + destruct (IH1 _ _ _ _ H) as (w & g & -> & -> & M).
      exists w, g. repeat split. now apply M_AltL.
    + destruct (IH2 _ _ _ _ H) as (w & g & -> & -> & M).
      exists w, g. repeat split. now apply M_AltR.
  - apply in_app_or in H. destruct H as [H|[H|[]]].
    + destruct (IH1 _ _ _ _ H) as (w & g & -> & -> & M).
      exists w, g. repeat split. now apply M_OptSome.
    + inversion H; subst. exists "", []. rewrite List.app_nil_r.
      repeat split. apply M_OptNone.
  - apply in_map_iff in H. destruct H as ([s1 c1] & Heq & Hin).
    simpl in Heq. inversion Heq; subst.
    destruct (IH1 _ _ _ _ Hin) as (w & g & -> & -> & M).
    exists w, (g ++ [w])%list. rewrite consumed_append, <- List.app_assoc.
    repeat split. now constructor.
Qed.

(** [re.match] returns a match of the pattern against a prefix. *)
Lemma match_sound ic r s m :
  match_ ic r s = Some m ->
  exists rest, s = whole m +:+ rest /\ matches ic r (whole m) (groups m).
Proof.
  unfold match_. destruct (run ic r s []) as [|[rest caps] l] eqn:E;
    [discriminate |].
  intros H. inversion H; subst; clear H. simpl.
  assert (Hin : In (rest, caps) (run ic r s [])) by (rewrite E; now left).
  destruct (run_sound _ _ _ _ _ _ Hin) as (w & gs & -> & -> & M).
  exists rest. rewrite consumed_append. simpl. now split.
Qed.

End MatcherFacts.

(* ------------------------------------------------------------------ *)
(** ** Numbers *)

Section NumberFacts.

Lemma digit_value_nonneg c : is_digit c = true -> 0 <= digit_value c <= 9.
Proof.
  unfold is_digit, digit_value. intros H.
  apply andb_prop in H. destruct H as [H1 H2].
  apply Nat.leb_le in H1. apply Nat.leb_le in H2. lia.
Qed.

Lemma int_digits_nonneg (s : string) :
  forall acc, 0 <= acc -> forall_chars is_digit s = true ->
              0 <= int_digits acc s.
Proof.
  induction s as [|c s IH]; intros acc Hacc H; simpl in *.
  - assumption.
  - apply andb_prop in H. destruct H as [Hc Hs].
    apply IH; [|assumption].
    pose proof (digit_value_nonneg c Hc). lia.
Qed.

Lemma is_number_spec (s : string) :
  is_number s = true <-> s <> "" /\ forall_chars is_digit s = true.
Proof.
  unfold is_number. rewrite andb_true_iff, negb_true_iff, String.eqb_neq.
  reflexivity.
Qed.

Lemma int_number (s : string) :
  is_number s = true -> int s = Ok (int_digits 0 s) /\ 0 <= int_digits 0 s.
Proof.
  intros H. unfold int. rewrite H. split; [reflexivity |].
  apply is_number_spec in H. apply int_digits_nonneg; [lia | tauto].
Qed.

Lemma is_number_of_rep (w : string) :
  forall_chars is_digit w = true -> (1 <= String.length w)%nat ->
  is_number w = true.
Proof.
  intros H L. apply is_number_spec. split; [|assumption].
  intros ->. simpl in L. lia.
Qed.

End NumberFacts.

(* ------------------------------------------------------------------ *)
(** ** Matches of the tool's patterns *)

Section PatternFacts.

Import Re UniversalInterfaceParser.

Ltac inv_matches :=
  repeat match goal with
         | H : matches _ (Seq _ _) _ _ |- _ => inversion H; subst; clear H
         | H : matches _ (Grp _) _ _ |- _ => inversion H; subst; clear H
         | H : matches _ (Lit _) _ _ |- _ => inversion H; subst; clear H
         | H : matches _ (Rep _ _) _ _ |- _ => inversion H; subst; clear H
         | H : matches _ (Alt _ _) _ _ |- _ => inversion H; subst; clear H
         | H : matches _ (Opt _) _ _ |- _ => inversion H; subst; clear H
         end.


Lemma match_digits s m :
  match_ false digits s = Some m ->
  groups m = [] /\ is_number (whole m) = true.
Proof.
  intros H. apply match_sound in H. destruct H as (rest & _ & M).
  unfold digits in M. inversion M; subst.
  split; [congruence | now apply is_number_of_rep].
Qed.

Lemma finditer_sound ic r (s : string) :
  forall k m, In m (finditer_from ic r s k) ->
              exists s', match_ ic r s' = Some m.
Proof.
  induction s as [|c s IH]; intros k m H; simpl in H.
  - destruct (match_ ic r "") as [m0|] eqn:E; [|contradiction].
    destruct H as [<-|[]]. eauto.
  - destruct k as [|k]; [|eauto].
    destruct (match_ ic r (String c s)) as [m0|] eqn:E; [|eauto].
    destruct H as [<-|H]; eauto.
Qed.

Lemma findall_digits_numbers (s x : string) :
  In x (findall false digits s) -> is_number x = true.
Proof.
  unfold findall. intros H. apply in_map_iff in H.
  destruct H as (m & <- & Hm).
  apply finditer_sound in Hm. destruct Hm as (s' & Hm).
  apply match_digits in Hm. destruct Hm as [-> Hw]. assumption.
Qed.


Lemma matches_three_segments pre w gs :
  matches false (three_segments pre) w gs ->
  exists d1 d2 d3 rest,
    gs = [pre; d1; d2; d3] /\ w = pre +:+ rest
    /\ is_number d1 = true /\ is_number d2 = true /\ is_number d3 = true.
Proof.
  unfold three_segments, digits. intros H. inv_matches.
  repeat match goal with
         | H : lit_prefix false _ _ = Some "" |- _ =>
             apply lit_prefix_exact in H; subst
         end.
  eexists _, _, _, _. simpl. split; [reflexivity |].
  split; [reflexivity |].
  repeat split; now apply is_number_of_rep.
Qed.

Lemma matches_two_segments pre w gs :
  matches false (two_segments pre) w gs ->
  exists d1 d2 rest,
    gs = [pre; d1; d2] /\ w = pre +:+ rest
    /\ is_number d1 = true /\ is_number d2 = true.
Proof.
  unfold two_segments, digits. intros H. inv_matches.
  repeat match goal with
         | H : lit_prefix false _ _ = Some "" |- _ =>
             apply lit_prefix_exact in H; subst
         end.
  eexists _, _, _. simpl. split; [reflexivity |].
  split; [reflexivity |].
  repeat split; now apply is_number_of_rep.
Qed.

Lemma matches_generic w gs :
  matches false generic_pattern w gs ->
  exists g0 rest, gs = [g0] /\ w = g0 +:+ rest /\ In g0 PREFIXES.
Proof.
  unfold generic_pattern. intros H. inv_matches;
    repeat match goal with
           | H : lit_prefix false _ _ = Some "" |- _ =>
               apply lit_prefix_exact in H; subst
           end;
    eexists _, _; (split; [reflexivity |]); (split; [reflexivity |]);
    simpl; tauto.
Qed.

End PatternFacts.

(* ------------------------------------------------------------------ *)
(** ** parse_interface_name *)

Section ParseFacts.

Import Re UniversalInterfaceParser.

Lemma bind_Ok {A B} (a : A) (k : A -> result B) : (x ← Ok a; k x) = k a.
Proof. reflexivity. Qed.

Lemma int_at_or_zero_numbers (l : list string) (i : nat) :
  (forall x, In x l -> is_number x = true) ->
  int_at_or_zero l i = Ok (number_at l i) /\ 0 <= number_at l i.
Proof.
  intros Hl. unfold int_at_or_zero, number_at, index.
  destruct (i <? length l)%nat eqn:E.
  - apply Nat.ltb_lt in E.
    destruct (nth_error l i) as [x|] eqn:Ex.
    + rewrite bind_Ok. apply int_number, Hl.
      eapply nth_error_In; eassumption.
    + apply nth_error_None in Ex. lia.
  - apply Nat.ltb_ge in E. apply nth_error_None in E. rewrite E.
    split; [reflexivity | lia].
Qed.

Lemma index_numbers (l : list string) (i : nat) :
  (forall x, In x l -> is_number x = true) -> (i < length l)%nat ->
  (s ← index l i; int s) = Ok (number_at l i) /\ 0 <= number_at l i.
Proof.
  intros Hl Hi. unfold number_at, index.
  destruct (nth_error l i) as [x|] eqn:Ex.
  - rewrite bind_Ok. apply int_number, Hl.
    eapply nth_error_In; eassumption.
  - apply nth_error_None in Ex. lia.
Qed.

Lemma three_segments_builds_well n pre :
  In pre PREFIXES ->
  builds_well {| pi_name := n; pi_pattern := three_segments pre;
                 pi_format := full |}.
Proof.
  intros Hpre name m H. simpl in H.
  apply match_sound in H. destruct H as (rest & Hname & M).
  apply matches_three_segments in M.
  destruct M as (d1 & d2 & d3 & rest' & Hg & Hw & H1 & H2 & H3).
  unfold build_result. rewrite Hg. simpl.
  destruct (int_number _ H1) as [-> ?].
  destruct (int_number _ H2) as [-> ?].
  destruct (int_number _ H3) as [-> ?].
  repeat rewrite bind_Ok. eexists. split; [reflexivity |].
  constructor; simpl; try assumption; try discriminate; try reflexivity.
  exists (rest' +:+ rest). rewrite Hname, Hw. apply append_assoc.
Qed.

Lemma two_segments_builds_well n pre :
  In pre PREFIXES ->
  builds_well {| pi_name := n; pi_pattern := two_segments pre;
                 pi_format := slot_port |}.
Proof.
  intros Hpre name m H. simpl in H.
  apply match_sound in H. destruct H as (rest & Hname & M).
  apply matches_two_segments in M.
  destruct M as (d1 & d2 & rest' & Hg & Hw & H1 & H2).
  unfold build_result. rewrite Hg. simpl.
  destruct (int_number _ H1) as [-> ?].
  destruct (int_number _ H2) as [-> ?].
  repeat rewrite bind_Ok. eexists. split; [reflexivity |].
  constructor; simpl; try assumption; try discriminate; try reflexivity.
  exists (rest' +:+ rest). rewrite Hname, Hw. apply append_assoc.
Qed.

Lemma generic_builds_well n :
  builds_well {| pi_name := n; pi_pattern := generic_pattern;
                 pi_format := generic |}.
Proof.
  intros name m H. simpl in H.
  apply match_sound in H. destruct H as (rest & Hname & M).
  apply matches_generic in M. destruct M as (g0 & rest' & Hg & Hw & Hin).
  unfold build_result. rewrite Hg. simpl.
  pose proof (findall_digits_numbers name) as Hnum.
  set (numbers := findall false digits name) in *.
  destruct (int_at_or_zero_numbers numbers 0 Hnum) as [-> ?].
  destruct (int_at_or_zero_numbers numbers 1 Hnum) as [-> ?].
  rewrite !bind_Ok.
  assert (Hport :
    (if (2 <? length numbers)%nat
     then s ← index numbers 2; int s
     else match numbers with
          | [] => Ok 0
          | _ => s ← index numbers (length numbers - 1); int s
          end)
    = Ok (number_at numbers
            (if (2 <? length numbers)%nat then 2 else length numbers - 1))
    /\ 0 <= number_at numbers
            (if (2 <? length numbers)%nat then 2 else length numbers - 1)).
  { destruct (2 <? length numbers)%nat eqn:E.
    - apply Nat.ltb_lt in E. apply index_numbers; assumption.
    - destruct numbers as [|x l] eqn:En.
      + split; [reflexivity | simpl; lia].
      + apply index_numbers; [assumption | simpl; lia]. }
  destruct Hport as [-> ?]. rewrite bind_Ok.
  eexists. split; [reflexivity |].
  constructor; simpl; try assumption; try discriminate; try reflexivity.
  - exists (rest' +:+ rest). rewrite Hname, Hw. apply append_assoc.
  - intros _. repeat split.
Qed.

Lemma parse_with_spec (ps : list pattern_info) (interface_name : string) :
  Forall builds_well ps ->
  exists r, parse_with ps interface_name = Ok r
            /\ forall p, r = Some p -> well_parsed interface_name p.
Proof.
  induction 1 as [|pinfo ps Hp _ IH]; simpl.
  - exists None. split; [reflexivity | discriminate].
  - destruct (match_ false (pi_pattern pinfo) interface_name) as [m|] eqn:E.
    + destruct (Hp _ _ E) as (p & -> & Hwp). rewrite bind_Ok.
      exists (Some p). split; [reflexivity |]. now intros ? [= <-].
    + exact IH.
Qed.

Lemma INTERFACE_PATTERNS_build_well : Forall builds_well INTERFACE_PATTERNS.
Proof.
  unfold INTERFACE_PATTERNS.
  repeat (constructor;
          [first [ apply three_segments_builds_well
                 | apply two_segments_builds_well
                 | apply generic_builds_well ]; simpl; tauto |]).
  constructor.
Qed.

(** [parse_interface_name] never raises, and what it returns is well
    formed. *)
Lemma parse_interface_name_spec (interface_name : string) :
  exists r, parse_interface_name interface_name = Ok r
            /\ forall p, r = Some p -> well_parsed interface_name p.
Proof. apply parse_with_spec, INTERFACE_PATTERNS_build_well. Qed.

End ParseFacts.

(* ------------------------------------------------------------------ *)
(** ** Interface Name Translator *)

Section TranslatorFacts.

Import Re UniversalInterfaceParser InterfaceTranslator.

(** The canonical name [GE u/s/p] has a blank after [GE], which none of
    the dialect patterns allows: the grammar does not recognise it. *)
Lemma canonical_name_not_parsed (t : string) :
  parse_interface_name ("GE " +:+ t) = Ok None.
Proof. vm_compute. reflexivity. Qed.

(** So the translator returns a canonical name as it stands. *)
Lemma translate_canonical_name (t : string) (u : Z) :
  translate_interface_name ("GE " +:+ t) u = Ok (PStr ("GE " +:+ t)).
Proof.
  unfold translate_interface_name.
  rewrite canonical_name_not_parsed. reflexivity.
Qed.



(** C4.  Translating a recognised name [X] for unit [u] gives a canonical
    name [c], and translating [c] again for the same unit gives [c]. *)
Theorem C4_translate_idempotent (X : string) (u : Z) (p : parsed_interface) :
  parse_interface_name X = Ok (Some p) ->
  exists c,
    c = "GE " +:+ str u +:+ "/" +:+ str (slot p) +:+ "/" +:+ str (port p)
    /\ translate_interface_name X u = Ok (PStr c)
    /\ translate_interface_name c u = Ok (PStr c).
Proof.
  intros Hp. eexists. split; [reflexivity |]. split.
  - unfold translate_interface_name. rewrite Hp. reflexivity.
  - apply translate_canonical_name.
Qed.

Lemma C4_translate_idempotent_witness :
  exists c,
    c = "GE 2/0/5"
    /\ translate_interface_name "GigabitEthernet0/0/5" 2 = Ok (PStr c)
    /\ translate_interface_name c 2 = Ok (PStr c).
Proof.
  exact (C4_translate_idempotent "GigabitEthernet0/0/5" 2
           {| original := "GigabitEthernet0/0/5";
              vendor_type := "Huawei GigabitEthernet";
              prefix := "GigabitEthernet"; fmt := full;
              stack := 0; slot := 0; port := 5 |} eq_refl).
Defined.

End TranslatorFacts.

(* ------------------------------------------------------------------ *)
(** ** Interface Name Grammar: the parsed record *)

Section GrammarFacts.

Import Re UniversalInterfaceParser.




End GrammarFacts.

(* ------------------------------------------------------------------ *)
(** ** Stack Aggregator: the uplink filter *)

Section UplinkFilterFacts.

Import UniversalInterfaceParser Routes.



(** The single-switch route has the port guard only. *)
Lemma skipped_by_extract_config_spec (p : parsed_interface) (max_port : Z) :
  skipped_by_extract_config p max_port = true <-> port p > max_port.
Proof. unfold skipped_by_extract_config. apply Z.gtb_gt. Qed.



End UplinkFilterFacts.

(* ------------------------------------------------------------------ *)
(** ** translate_full_config *)

Section FullConfigFacts.

Import UniversalInterfaceParser InterfaceTranslator.




End FullConfigFacts.

(* ------------------------------------------------------------------ *)
(** ** strip, split and search: what the block parser relies on *)

Section LineFacts.

Import Re.






Ltac inv_matches :=
  repeat match goal with
         | H : matches _ (Seq _ _) _ _ |- _ => inversion H; subst; clear H
         | H : matches _ (Grp _) _ _ |- _ => inversion H; subst; clear H
         | H : matches _ (Lit _) _ _ |- _ => inversion H; subst; clear H
         | H : matches _ (Rep _ _) _ _ |- _ => inversion H; subst; clear H
         end.






Lemma ints_numbers (l : list string) :
  (forall x, In x l -> is_number x = true) ->
  ConfigParser.ints l = Ok (List.map (int_digits 0) l).
Proof.
  induction l as [|x l IH]; intros H; simpl; [reflexivity |].
  destruct (int_number x (H x (or_introl eq_refl))) as [-> _].
  rewrite bind_Ok, IH; [reflexivity |].
  intros y Hy. apply H. now right.
Qed.

End LineFacts.

(* ------------------------------------------------------------------ *)
(** ** parse_interface_config *)

Section BlockParserFacts.

Import Re ConfigParser.






End BlockParserFacts.

(* ------------------------------------------------------------------ *)
(** ** The trunk-permit and access-VLAN lines *)

Section VlanLineFacts.

Import Re ConfigParser.

Lemma parse_lines_app (l1 l2 : list string) :
  forall c,
    parse_lines c (l1 ++ l2) = (c1 ← parse_lines c l1; parse_lines c1 l2).
Proof.
  induction l1 as [|raw l1 IH]; intros c; simpl; [reflexivity |].
  destruct (parse_line c raw) as [c1|e]; [|reflexivity].
  rewrite !bind_Ok. apply IH.
Qed.

(** The state after one more line. *)
Lemma parse_lines_snoc (before : list string) (raw : string) (c0 c : config) :
  parse_lines c0 before = Ok c ->
  parse_lines c0 (before ++ [raw]) = parse_line c raw.
Proof.
  intros H. rewrite parse_lines_app, H, bind_Ok. simpl.
  destruct (parse_line c raw); reflexivity.
Qed.

Lemma range_spec (lo hi v : Z) : In v (range lo hi) <-> lo <= v < hi.
Proof.
  unfold range. rewrite in_map_iff. split.
  - intros (k & <- & Hk). apply in_seq in Hk. lia.
  - intros Hv. exists (Z.to_nat (v - lo)). split; [lia |].
    apply in_seq. lia.
Qed.

Lemma lower_char_idem_on (p : string) :
  lower p = p -> forall s r,
  strip_prefix p s = Some r -> startswith (lower s) p = true.
Proof.
  revert p. induction p as [|a p IH]; intros Hp s r H.
  - reflexivity.
  - simpl in Hp. injection Hp as Ha Hp.
    destruct s as [|b s]; simpl in H; [discriminate |].
    destruct (Ascii.eqb_spec a b) as [<-|]; [|discriminate].
    unfold startswith. simpl. rewrite Ha, Ascii.eqb_refl.
    specialize (IH Hp s r H). unfold startswith in IH. exact IH.
Qed.

(** A keyword in lower case found in a line is found in the lower-cased
    line. *)
Lemma contains_lower (p s : string) :
  lower p = p -> contains p s = true -> contains p (lower s) = true.
Proof.
  intros Hp. induction s as [|c s IH]; simpl; intros H.
  - apply orb_true_iff in H. destruct H as [H|H]; [|discriminate].
    unfold startswith in *. destruct p; [reflexivity | discriminate].
  - apply orb_true_iff in H. apply orb_true_iff. destruct H as [H|H].
    + left. unfold startswith in H.
      destruct (strip_prefix p (String c s)) as [r|] eqn:E; [|discriminate].
      apply (lower_char_idem_on p Hp (String c s) r E).
    + right. now apply IH.
Qed.

(** What the chain does with a trunk-permit line. *)
Lemma classify_trunk_permit (c : config) (line : string) :
  is_trunk_permit_line line = true ->
  classify c line
  = Ok (set_trunk_vlans
          (if link_type_unset c then set_port_link_type c "trunk" else c)
          (if contains "vlan all" (lower line) then range 2 4095
           else List.map (int_digits 0) (findall false digits line))).
Proof.
  unfold is_trunk_permit_line. rewrite !andb_true_iff, !negb_true_iff.
  intros ((((H1 & H2) & H3) & H4) & H5).
  unfold classify. rewrite H1, H2, H3, H4, H5.
  destruct (contains "vlan all" (lower line)); [reflexivity |].
  rewrite (ints_numbers _ (findall_digits_numbers line)). reflexivity.
Qed.

Lemma parse_line_trunk_permit (c : config) (raw : string) :
  is_trunk_permit_line (strip raw) = true ->
  exists c',
    parse_line c raw = Ok c'
    /\ port_link_type c'
       = (if link_type_unset c then Some "trunk" else port_link_type c)
    /\ trunk_vlans c'
       = (if contains "vlan all" (lower (strip raw)) then range 2 4095
          else List.map (int_digits 0) (findall false digits (strip raw))).
Proof.
  intros H. unfold parse_line. rewrite (classify_trunk_permit c _ H), bind_Ok.
  eexists. split; [reflexivity |].
  destruct (negb (String.eqb (strip raw) "")
            && negb (startswith (strip raw) "#"));
    destruct (link_type_unset c) eqn:E; simpl; rewrite ?E; split; reflexivity.
Qed.

(** C3.  Take a config block read up to some line, with the record built
    so far [c], and let the next line be a trunk-permit line.  After that
    line the link mode is Trunk if it was unset and is unchanged
    otherwise; if the line holds the keyword [vlan all] the trunk VLANs
    are exactly the range 2..4094; if it does not, in any letter case,
    they are the integers written on the line, so for
    [port trunk allow-pass vlan 10 20 30] exactly 10, 20, 30. *)
Theorem C3_trunk_permit_line (before : list string) (raw : string)
    (c : config) :
  parse_lines initial_config before = Ok c ->
  is_trunk_permit_line (strip raw) = true ->
  exists c',
    parse_lines initial_config (before ++ [raw]) = Ok c'
    /\ port_link_type c'
       = (if link_type_unset c then Some "trunk" else port_link_type c)
    /\ (contains "vlan all" (strip raw) = true ->
        trunk_vlans c' = range 2 4095
        /\ forall v, In v (trunk_vlans c') <-> 2 <= v <= 4094)
    /\ (contains "vlan all" (lower (strip raw)) = false ->
        trunk_vlans c'
        = List.map (int_digits 0) (findall false digits (strip raw)))
    /\ (strip raw = "port trunk allow-pass vlan 10 20 30" ->
        trunk_vlans c' = [10; 20; 30]).
Proof.
  intros Hc Hline.
  destruct (parse_line_trunk_permit c raw Hline) as (c' & Hc' & Hlt & Htv).
  exists c'. rewrite (parse_lines_snoc _ _ _ _ Hc).
  split; [assumption |]. split; [assumption |]. split.
  - intros Hall.
    rewrite (contains_lower "vlan all" _ eq_refl Hall) in Htv.
    split; [assumption |]. intros v. rewrite Htv, range_spec. lia.
  - split.
    + intros Hno. now rewrite Hno in Htv.
    + intros Heq. rewrite Htv, Heq. reflexivity.
Qed.

Lemma C3_trunk_permit_line_witness :
  exists c',
    parse_lines initial_config
      (["interface Eth1/0/1"] ++ [" port trunk permit vlan all"]) = Ok c'
    /\ port_link_type c' = Some "trunk"
    /\ (contains "vlan all" "port trunk permit vlan all" = true ->
        trunk_vlans c' = range 2 4095
        /\ forall v, In v (trunk_vlans c') <-> 2 <= v <= 4094)
    /\ (contains "vlan all" (lower "port trunk permit vlan all") = false ->
        trunk_vlans c'
        = List.map (int_digits 0)
            (findall false digits "port trunk permit vlan all"))
    /\ ("port trunk permit vlan all"
        = "port trunk allow-pass vlan 10 20 30" ->
        trunk_vlans c' = [10; 20; 30]).
Proof.
  exact (C3_trunk_permit_line ["interface Eth1/0/1"]
           " port trunk permit vlan all"
           (set_name (append_raw_config initial_config "interface Eth1/0/1")
              "Eth1/0/1" )
           eq_refl eq_refl).
Defined.

(** C10.  The range spelling [2 to 4094] is not expanded by the block
    parser: whatever was read before, after the line
    [port trunk allow-pass vlan 2 to 4094] the trunk VLANs are the two
    integers written on it, 2 and 4094, which is not the full range.  The
    Layer-3 importer, given the same text in its second configuration
    column, records no explicit list. *)
Theorem C10_range_spelling_kept_literal (c : config) :
  (exists c',
      parse_line c " port trunk allow-pass vlan 2 to 4094" = Ok c'
      /\ trunk_vlans c' = [2; 4094]
      /\ trunk_vlans c' <> range 2 4095)
  /\ (exists m,
        Routes.parse_row
          [Routes.CNone; Routes.CStr "GigabitEthernet0/0/1";
           Routes.CStr "interface XGigabitEthernet1/0/1"; Routes.CNone;
           Routes.CNone; Routes.CStr "trunk"; Routes.CNone;
           Routes.CStr "port trunk allow-pass vlan 2 to 4094"]
        = Ok (Some m)
        /\ Routes.trunk_vlans m = None).
Proof.
  split.
  - destruct (parse_line_trunk_permit c
                " port trunk allow-pass vlan 2 to 4094" eq_refl)
      as (c' & Hc' & _ & Htv).
    exists c'. split; [assumption |].
    assert (H : trunk_vlans c' = [2; 4094]) by (rewrite Htv; reflexivity).
    split; [assumption |]. rewrite H. discriminate.
  - eexists. split; [vm_compute; reflexivity | reflexivity].
Qed.

End VlanLineFacts.

(* ------------------------------------------------------------------ *)
(** ** The access-VLAN line *)

Section AccessVlanFacts.

Import Re ConfigParser.

Lemma is_digit_not_space (x : ascii) : is_digit x = true -> is_space x = false.
Proof.
  unfold is_digit, is_space. intros H.
  apply andb_prop in H. destruct H as [H1 H2].
  apply Nat.leb_le in H1. apply Nat.leb_le in H2.
  repeat rewrite orb_false_iff. repeat rewrite andb_false_iff.
  repeat rewrite Nat.leb_gt. repeat rewrite Nat.eqb_neq.
  repeat split; lia.
Qed.

(** A keyword that starts with a letter does not occur in a number. *)
Lemma contains_number (a : ascii) (pat d : string) :
  is_digit a = false -> forall_chars is_digit d = true ->
  contains (String a pat) d = false.
Proof.
  intros Ha. induction d as [|x d IH]; intros Hd; simpl in *.
  - reflexivity.
  - apply andb_prop in Hd. destruct Hd as [Hx Hd].
    rewrite (IH Hd), orb_false_r. unfold startswith. simpl.
    destruct (Ascii.eqb_spec a x) as [->|]; [congruence | reflexivity].
Qed.

Lemma contains_cons_false (p : string) (c : ascii) (s : string) :
  startswith (String c s) p = false ->
  contains p (String c s) = contains p s.
Proof. intros H. simpl. now rewrite H. Qed.

Lemma search_cons_none ic r (c : ascii) (s : string) :
  match_ ic r (String c s) = None ->
  search ic r (String c s) = search ic r s.
Proof. intros H. simpl. now rewrite H. Qed.

Lemma search_here ic r (s : string) m :
  match_ ic r s = Some m -> search ic r s = Some m.
Proof. intros H. destruct s; simpl; now rewrite H. Qed.

(** On a run of class characters the longest repetition takes it all. *)
Lemma reps_all p (d : string) :
  forall_chars p d = true ->
  exists tl, reps p d = (String.length d, "") :: tl.
Proof.
  induction d as [|x d IH]; simpl; intros H.
  - now exists [].
  - apply andb_prop in H. destruct H as [Hx Hd]. rewrite Hx.
    destruct (IH Hd) as (tl & ->). simpl. eauto.
Qed.

Lemma reps_space_number (d : string) :
  is_number d = true -> reps is_space d = [(O, d)].
Proof.
  intros H. apply is_number_spec in H. destruct H as [Hne Hd].
  destruct d as [|x d]; [contradiction |]. simpl in *.
  apply andb_prop in Hd. destruct Hd as [Hx _].
  now rewrite (is_digit_not_space x Hx).
Qed.

Lemma consumed_all (d : string) : consumed d "" = d.
Proof.
  pose proof (consumed_append d "") as H.
  now rewrite append_nil_r in H.
Qed.

(** [vlan\s+(\d+)] on [vlan N]: the group is [N]. *)
Lemma match_vlan_number (d : string) :
  is_number d = true ->
  match_ false vlan_re ("vlan " +:+ d)
  = Some {| whole := "vlan " +:+ d; groups := [d] |}.
Proof.
  intros H. unfold match_, vlan_re, digits. simpl.
  rewrite (reps_space_number d H). simpl.
  pose proof H as H'. apply is_number_spec in H'. destruct H' as [Hne Hd].
  destruct (reps_all is_digit d Hd) as (tl & ->). simpl.
  destruct d as [|x d]; [contradiction |]. simpl.
  f_equal. f_equal.
  - exact (consumed_all (String "v" (String "l" (String "a" (String "n"
             (String " " (String x d))))))).
  - f_equal. exact (consumed_all (String x d)).
Qed.

Lemma search_vlan_in_access_line (spelling d : string) :
  In spelling ["port default vlan "; "port access vlan "] ->
  is_number d = true ->
  search false vlan_re (spelling +:+ d)
  = Some {| whole := "vlan " +:+ d; groups := [d] |}.
Proof.
  intros Hs Hd. simpl in Hs.
  destruct Hs as [<-|[<-|[]]]; cbn [String.append];
    repeat (rewrite search_cons_none by (vm_compute; reflexivity));
    exact (search_here _ _ _ _ (match_vlan_number d Hd)).
Qed.

Lemma link_type_not_in_access_line (spelling d : string) :
  In spelling ["port default vlan "; "port access vlan "] ->
  is_number d = true ->
  contains "port link-type" (spelling +:+ d) = false.
Proof.
  intros Hs Hd. apply is_number_spec in Hd. destruct Hd as [_ Hd].
  simpl in Hs.
  destruct Hs as [<-|[<-|[]]]; cbn [String.append];
    repeat (rewrite contains_cons_false by reflexivity);
    now apply contains_number.
Qed.

(** What the chain does with an access-VLAN line, in either spelling. *)
Lemma classify_access_vlan (c : config) (spelling d : string) :
  In spelling ["port default vlan "; "port access vlan "] ->
  is_number d = true ->
  classify c (spelling +:+ d)
  = Ok (let c1 := set_vlan c (int_digits 0 d) in
        if link_type_unset c then set_port_link_type c1 "access" else c1).
Proof.
  intros Hs Hd. unfold classify.
  rewrite (link_type_not_in_access_line _ _ Hs Hd).
  rewrite (search_vlan_in_access_line _ _ Hs Hd).
  assert (E1 : startswith (spelling +:+ d) "interface " = false).
  { simpl in Hs. destruct Hs as [<-|[<-|[]]]; reflexivity. }
  assert (E2 : startswith (spelling +:+ d) "description " = false).
  { simpl in Hs. destruct Hs as [<-|[<-|[]]]; reflexivity. }
  assert (E3 : contains "port default vlan" (spelling +:+ d)
               || contains "port access vlan" (spelling +:+ d) = true).
  { apply is_number_spec in Hd. destruct Hd as [_ Hd]. simpl in Hs.
    destruct Hs as [<-|[<-|[]]]; cbn [String.append].
    - reflexivity.
    - apply orb_true_iff. right. reflexivity. }
  rewrite E1, E2, E3. simpl.
  destruct (int_number d Hd) as [-> _]. reflexivity.
Qed.

(** A block with a trunk-permit line and an access-VLAN line but no
    [port link-type] line: the trunk-permit line has set the link mode,
    and the access-VLAN line leaves it Trunk. *)
Lemma C6_inferred_trunk_counterexample :
  let text := "port trunk permit vlan 10" +:+ String newline ""
              +:+ "port default vlan 20" in
  forallb (fun l => negb (contains "port link-type" l))
    (split_on newline text) = true
  /\ parse_interface_config text
     = Ok {| name := None; description := None;
             port_link_type := Some "trunk"; vlan := Some 20;
             trunk_vlans := [10]; speed := None; duplex := None;
             shutdown := false;
             raw_config := ["port trunk permit vlan 10";
                            "port default vlan 20"] |}.
Proof. split; vm_compute; reflexivity. Qed.

(** C6, as the code has it.  Take a config block read up to some line,
    with the record built so far [c], and let the next line be an
    access-VLAN line [port default vlan N] or [port access vlan N].
    After that line the access VLAN is [N]; the link mode is Access if
    it was unset until then, and is what it was if an earlier line had
    set it. *)
Theorem C6_access_vlan_line (before : list string) (raw d : string)
    (c : config) :
  parse_lines initial_config before = Ok c ->
  is_number d = true ->
  strip raw = "port default vlan " +:+ d
  \/ strip raw = "port access vlan " +:+ d ->
  exists c',
    parse_lines initial_config (before ++ [raw]) = Ok c'
    /\ vlan c' = Some (int_digits 0 d)
    /\ port_link_type c'
       = (if link_type_unset c then Some "access" else port_link_type c).
Proof.
  intros Hc Hd Hraw.
  rewrite (parse_lines_snoc _ _ _ _ Hc). unfold parse_line.
  assert (Hcl : classify c (strip raw)
                = Ok (let c1 := set_vlan c (int_digits 0 d) in
                      if link_type_unset c
                      then set_port_link_type c1 "access" else c1)).
  { destruct Hraw as [-> | ->]; apply classify_access_vlan;
      simpl; tauto. }
  rewrite Hcl, bind_Ok. eexists. split; [reflexivity |].
  destruct (negb (String.eqb (strip raw) "")
            && negb (startswith (strip raw) "#"));
    destruct (link_type_unset c); simpl; split; reflexivity.
Qed.

Lemma C6_access_vlan_line_witness :
  exists c',
    parse_lines initial_config
      (["interface Eth1/0/1"] ++ [" port access vlan 10"]) = Ok c'
    /\ vlan c' = Some 10
    /\ port_link_type c' = Some "access".
Proof.
  exact (C6_access_vlan_line ["interface Eth1/0/1"] " port access vlan 10"
           "10"
           (set_name (append_raw_config initial_config "interface Eth1/0/1")
              "Eth1/0/1")
           eq_refl eq_refl (or_intror eq_refl)).
Defined.

End AccessVlanFacts.

(* ------------------------------------------------------------------ *)
(** ** Layer-3 Mapping Importer *)

Section ImporterFacts.

Import Re Routes.










End ImporterFacts.

(* ================================================================== *)
(** * Further properties of the code *)

(* ------------------------------------------------------------------ *)
(** ** str and int on integers *)

Section DecimalFacts.

Ltac eval_digit_value :=
  repeat match goal with
         | |- context [digit_value ?c] =>
             let v := eval vm_compute in (digit_value c) in
             change (digit_value c) with v
         end.

Lemma of_uint_acc_digits (d : Decimal.uint) :
  forall acc : positive,
    int_digits (Z.pos acc) (NilEmpty.string_of_uint d)
    = Z.pos (Pos.of_uint_acc d acc).
Proof.
  induction d; intros acc; simpl; try reflexivity;
    rewrite <- IHd; f_equal; eval_digit_value; lia.
Qed.

Lemma of_uint_digits (d : Decimal.uint) :
  int_digits 0 (NilEmpty.string_of_uint d) = Z.of_N (Pos.of_uint d).
Proof.
  induction d; simpl; try reflexivity; try exact IHd;
    eval_digit_value;
    match goal with
    | |- int_digits (10 * 0 + Z.pos ?k) _ = _ =>
        change (10 * 0 + Z.pos k) with (Z.pos k);
        rewrite of_uint_acc_digits
    end; reflexivity.
Qed.

Lemma string_of_uint_digits (d : Decimal.uint) :
  forall_chars is_digit (NilEmpty.string_of_uint d) = true.
Proof. induction d; simpl; auto. Qed.

(** [str] of a natural number is a number, and [int] reads it back. *)
Lemma str_nonneg (z : Z) :
  0 <= z -> is_number (str z) = true /\ int_digits 0 (str z) = z.
Proof.
  intros Hz. unfold str. destruct z as [|p|p]; [| |lia].
  - split; reflexivity.
  - simpl. pose proof (DecimalPos.Unsigned.to_uint_nonnil p) as Hnn.
    assert (Hs : NilZero.string_of_uint (Pos.to_uint p)
                 = NilEmpty.string_of_uint (Pos.to_uint p)).
    { destruct (Pos.to_uint p); [contradiction | reflexivity ..]. }
    rewrite Hs. split.
    + apply is_number_spec. split; [|apply string_of_uint_digits].
      destruct (Pos.to_uint p); [contradiction | discriminate ..].
    + rewrite of_uint_digits, DecimalPos.Unsigned.of_to. reflexivity.
Qed.

Lemma int_str (z : Z) : 0 <= z -> int (str z) = Ok z.
Proof.
  intros Hz. destruct (str_nonneg z Hz) as [Hn Hv].
  unfold int. now rewrite Hn, Hv.
Qed.

End DecimalFacts.

(* ------------------------------------------------------------------ *)
(** ** The pattern table *)

Section PatternTableFacts.

Import Re UniversalInterfaceParser.

Lemma build_result_vendor (pinfo : pattern_info) (X : string) (m : mobj)
    (p : parsed_interface) :
  build_result pinfo X m = Ok p ->
  vendor_type p = pi_name pinfo /\ fmt p = pi_format pinfo.
Proof.
  unfold build_result. intros H.
  destruct (index (groups m) 0) as [g0|]; [|discriminate].
  rewrite bind_Ok in H.
  destruct (pi_format pinfo);
    repeat match type of H with
           | mbind _ ?c = Ok _ =>
               destruct c; [rewrite bind_Ok in H | discriminate]
           end;
    injection H as <-; split; reflexivity.
Qed.

(** X1.  The fifth entry of the pattern table, "HP GigabitEthernet", has
    the pattern of the first and is never the one that decides: the
    vendor type of a parse is always one of the other seven. *)
Theorem X1_hp_gigabitethernet_unreachable (X : string)
    (p : parsed_interface) :
  parse_interface_name X = Ok (Some p) ->
  vendor_type p <> "HP GigabitEthernet"
  /\ In (vendor_type p)
       ["Huawei GigabitEthernet"; "Huawei GE Short"; "Huawei Ethernet";
        "HP Eth"; "Cisco GigabitEthernet"; "Cisco FastEthernet";
        "Generic Interface"].
Proof.
  unfold parse_interface_name, INTERFACE_PATTERNS. cbn [parse_with pi_pattern].
  intros H.
  assert (Hin : In (vendor_type p)
       ["Huawei GigabitEthernet"; "Huawei GE Short"; "Huawei Ethernet";
        "HP Eth"; "Cisco GigabitEthernet"; "Cisco FastEthernet";
        "Generic Interface"]).
  { repeat match type of H with
           | match ?c with Some _ => _ | None => _ end = _ =>
               destruct c as [m|] eqn:?
           end;
    try discriminate;
    match type of H with
    | mbind _ ?c = Ok _ =>
        destruct c as [r|] eqn:Hb; [|discriminate]
    end;
    rewrite bind_Ok in H; injection H as <-;
    apply build_result_vendor in Hb; destruct Hb as [-> _];
    simpl; tauto. }
  split; [|exact Hin].
  intros Heq. rewrite Heq in Hin. simpl in Hin.
  repeat (destruct Hin as [Hin|Hin]; [discriminate |]). exact Hin.
Qed.

Lemma X1_hp_gigabitethernet_unreachable_witness :
  "Huawei GigabitEthernet" <> "HP GigabitEthernet"
  /\ In "Huawei GigabitEthernet"
       ["Huawei GigabitEthernet"; "Huawei GE Short"; "Huawei Ethernet";
        "HP Eth"; "Cisco GigabitEthernet"; "Cisco FastEthernet";
        "Generic Interface"].
Proof.
  exact (X1_hp_gigabitethernet_unreachable "GigabitEthernet1/0/24"
           {| original := "GigabitEthernet1/0/24";
              vendor_type := "Huawei GigabitEthernet";
              prefix := "GigabitEthernet"; fmt := full;
              stack := 1; slot := 0; port := 24 |} eq_refl).
Defined.

(** X2.  The two functions called [translate_interface_name] agree on
    every name the grammar recognises and differ on every other: the
    module-level one, kept for backward compatibility, answers [None],
    the translator class answers the name it was given. *)
Theorem X2_translate_wrappers (X : string) (u : Z) :
  exists r,
    parse_interface_name X = Ok r
    /\ match r with
       | Some p =>
           UniversalInterfaceParser.translate_interface_name X u
           = InterfaceTranslator.translate_interface_name X u
       | None =>
           UniversalInterfaceParser.translate_interface_name X u = Ok PNone
           /\ InterfaceTranslator.translate_interface_name X u
              = Ok (PStr X)
       end.
Proof.
  destruct (parse_interface_name_spec X) as (r & Hr & _).
  exists r. split; [assumption |].
  unfold UniversalInterfaceParser.translate_interface_name,
    InterfaceTranslator.translate_interface_name.
  rewrite Hr, !bind_Ok. destruct r; [reflexivity | split; reflexivity].
Qed.

End PatternTableFacts.

(* ------------------------------------------------------------------ *)
(** ** The first way the matcher finds *)

Section FirstWayFacts.

Import Re UniversalInterfaceParser.

Lemma lit_prefix_append (w s : string) : lit_prefix false w (w +:+ s) = Some s.
Proof.
  induction w as [|a w IH]; simpl; [reflexivity |].
  now rewrite Ascii.eqb_refl.
Qed.

(** Greedy: a run of class characters followed by something else is
    taken whole first. *)
Lemma reps_app p (d rest : string) :
  forall_chars p d = true -> not_starting p rest = true ->
  exists tl, reps p (d +:+ rest) = (String.length d, rest) :: tl.
Proof.
  intros Hd Hrest. induction d as [|x d IH]; simpl in *.
  - destruct rest as [|c r]; simpl in *; [now exists [] |].
    apply negb_true_iff in Hrest. rewrite Hrest. now exists [].
  - apply andb_prop in Hd. destruct Hd as [Hx Hd]. rewrite Hx.
    destruct (IH Hd) as (tl & ->). simpl. eauto.
Qed.

Lemma run_seq_cons ic r1 r2 (s : string) caps st1 tl1 y tl2 :
  run ic r1 s caps = st1 :: tl1 ->
  run ic r2 (fst st1) (snd st1) = y :: tl2 ->
  exists tl, run ic (Seq r1 r2) s caps = y :: tl.
Proof. intros H1 H2. simpl. rewrite H1. simpl. rewrite H2. simpl. eauto. Qed.

Lemma run_grp_lit (w s : string) caps :
  run false (Grp (Lit w)) (w +:+ s) caps = [(s, caps ++ [w])%list].
Proof.
  cbn [run]. rewrite lit_prefix_append. cbn [List.map fst snd].
  now rewrite consumed_append.
Qed.

Lemma run_lit (w s : string) caps :
  run false (Lit w) (w +:+ s) caps = [(s, caps)].
Proof. simpl. now rewrite lit_prefix_append. Qed.

Lemma run_grp_digits ic (d rest : string) caps :
  is_number d = true -> not_starting is_digit rest = true ->
  exists tl,
    run ic (Grp digits) (d +:+ rest) caps = (rest, caps ++ [d])%list :: tl.
Proof.
  intros Hd Hrest. apply is_number_spec in Hd. destruct Hd as [Hne Hd].
  destruct (reps_app is_digit d rest Hd Hrest) as (tl & Hreps).
  unfold digits. cbn [run]. rewrite Hreps.
  assert (Hlen : (1 <=? String.length d)%nat = true).
  { destruct d; [contradiction | reflexivity]. }
  cbn [List.filter fst snd]. rewrite Hlen. cbn [List.map fst snd].
  rewrite consumed_append. eauto.
Qed.

(** A three-segment name is matched by its pattern, the groups being
    the prefix and the three numbers. *)
Lemma match_three_segments (w d1 d2 d3 rest : string) :
  is_number d1 = true -> is_number d2 = true -> is_number d3 = true ->
  not_starting is_digit rest = true ->
  exists m,
    match_ false (three_segments w)
      (w +:+ d1 +:+ "/" +:+ d2 +:+ "/" +:+ d3 +:+ rest) = Some m
    /\ groups m = [w; d1; d2; d3].
Proof.
  intros H1 H2 H3 Hrest.
  destruct (run_grp_digits false d3 rest [w; d1; d2] H3 Hrest) as (t3 & R3).
  destruct (run_seq_cons false (Lit "/") (Grp digits)
              ("/" +:+ d3 +:+ rest) [w; d1; d2] _ _ _ _
              (run_lit "/" (d3 +:+ rest) [w; d1; d2]) R3) as (t3' & R3').
  destruct (run_grp_digits false d2 ("/" +:+ d3 +:+ rest) [w; d1] H2 eq_refl)
    as (t2 & R2).
  destruct (run_seq_cons false (Grp digits) _ _ _ _ _ _ _ R2 R3')
    as (t2' & R2').
  destruct (run_seq_cons false (Lit "/") _
              ("/" +:+ d2 +:+ "/" +:+ d3 +:+ rest) [w; d1] _ _ _ _
              (run_lit "/" _ [w; d1]) R2') as (t2'' & R2'').
  destruct (run_grp_digits false d1 ("/" +:+ d2 +:+ "/" +:+ d3 +:+ rest)
              [w] H1 eq_refl) as (t1 & R1).
  destruct (run_seq_cons false (Grp digits) _ _ _ _ _ _ _ R1 R2'')
    as (t1' & R1').
  destruct (run_seq_cons false (Grp (Lit w)) _ _ [] _ _ _ _
              (run_grp_lit w _ []) R1') as (t0 & R0).
  unfold match_, three_segments. rewrite R0. eauto.
Qed.

(** The same for a two-segment name. *)
Lemma match_two_segments (w d1 d2 rest : string) :
  is_number d1 = true -> is_number d2 = true ->
  not_starting is_digit rest = true ->
  exists m,
    match_ false (two_segments w) (w +:+ d1 +:+ "/" +:+ d2 +:+ rest) = Some m
    /\ groups m = [w; d1; d2].
Proof.
  intros H1 H2 Hrest.
  destruct (run_grp_digits false d2 rest [w; d1] H2 Hrest) as (t2 & R2).
  destruct (run_seq_cons false (Lit "/") (Grp digits)
              ("/" +:+ d2 +:+ rest) [w; d1] _ _ _ _
              (run_lit "/" (d2 +:+ rest) [w; d1]) R2) as (t2' & R2').
  destruct (run_grp_digits false d1 ("/" +:+ d2 +:+ rest) [w] H1 eq_refl)
    as (t1 & R1).
  destruct (run_seq_cons false (Grp digits) _ _ _ _ _ _ _ R1 R2')
    as (t1' & R1').
  destruct (run_seq_cons false (Grp (Lit w)) _ _ [] _ _ _ _
              (run_grp_lit w _ []) R1') as (t0 & R0).
  unfold match_, two_segments. rewrite R0. eauto.
Qed.

(** A pattern whose literal prefix is not there does not match. *)
Lemma three_segments_no_prefix (w s : string) :
  lit_prefix false w s = None -> match_ false (three_segments w) s = None.
Proof. intros H. unfold match_, three_segments. simpl. now rewrite H. Qed.

Lemma two_segments_no_prefix (w s : string) :
  lit_prefix false w s = None -> match_ false (two_segments w) s = None.
Proof. intros H. unfold match_, two_segments. simpl. now rewrite H. Qed.

End FirstWayFacts.

(* ------------------------------------------------------------------ *)
(** ** Names with known numbers *)

Section ExactParseFacts.

Import Re UniversalInterfaceParser.

Lemma build_full_exact (pinfo : pattern_info) (X : string) (m : mobj)
    (w d1 d2 d3 : string) :
  pi_format pinfo = full -> groups m = [w; d1; d2; d3] ->
  is_number d1 = true -> is_number d2 = true -> is_number d3 = true ->
  build_result pinfo X m
  = Ok {| original := X; vendor_type := pi_name pinfo; prefix := w;
          fmt := full; stack := int_digits 0 d1; slot := int_digits 0 d2;
          port := int_digits 0 d3 |}.
Proof.
  intros Hf Hg H1 H2 H3. unfold build_result. rewrite Hf, Hg. simpl.
  destruct (int_number _ H1) as [-> _].
  destruct (int_number _ H2) as [-> _].
  destruct (int_number _ H3) as [-> _]. reflexivity.
Qed.

Lemma build_slot_port_exact (pinfo : pattern_info) (X : string) (m : mobj)
    (w d1 d2 : string) :
  pi_format pinfo = slot_port -> groups m = [w; d1; d2] ->
  is_number d1 = true -> is_number d2 = true ->
  build_result pinfo X m
  = Ok {| original := X; vendor_type := pi_name pinfo; prefix := w;
          fmt := slot_port; stack := 0; slot := int_digits 0 d1;
          port := int_digits 0 d2 |}.
Proof.
  intros Hf Hg H1 H2. unfold build_result. rewrite Hf, Hg. simpl.
  destruct (int_number _ H1) as [-> _].
  destruct (int_number _ H2) as [-> _]. reflexivity.
Qed.

Lemma lit_prefix_common (a l s : string) :
  lit_prefix false (a +:+ l) (a +:+ s) = lit_prefix false l s.
Proof.
  induction a as [|c a IH]; [reflexivity |].
  cbn [String.append lit_prefix fold_case]. now rewrite Ascii.eqb_refl.
Qed.

Lemma lit_prefix_letter_digit (c x : ascii) (l s : string) :
  is_digit c = false -> is_digit x = true ->
  lit_prefix false (String c l) (String x s) = None.
Proof.
  intros Hc Hx. cbn [lit_prefix fold_case].
  destruct (Ascii.eqb_spec c x) as [->|]; [congruence | reflexivity].
Qed.

(** After [Eth] a digit follows, not the [e] of [Ethernet]. *)
Lemma ethernet_not_prefix_of_eth (d t : string) :
  is_number d = true -> lit_prefix false "Ethernet" ("Eth" +:+ d +:+ t) = None.
Proof.
  intros Hd. apply is_number_spec in Hd. destruct Hd as [Hne Hd].
  destruct d as [|x d]; [contradiction |].
  cbn [forall_chars] in Hd. apply andb_prop in Hd. destruct Hd as [Hx _].
  change "Ethernet" with ("Eth" +:+ "ernet").
  rewrite lit_prefix_common. cbn [String.append].
  now apply lit_prefix_letter_digit.
Qed.

(** X3.  A three-segment name in one of the four dialects
    GigabitEthernet, GE, Ethernet, Eth, written with any three numbers
    and followed by anything that does not go on with a digit, parses to
    exactly that prefix and those three numbers as stack, slot and port;
    [extract_interface_number] returns the triple. *)
Theorem X3_three_segment_names (w d1 d2 d3 rest : string) :
  In w ["GigabitEthernet"; "GE"; "Ethernet"; "Eth"] ->
  is_number d1 = true -> is_number d2 = true -> is_number d3 = true ->
  not_starting is_digit rest = true ->
  exists p,
    parse_interface_name (w +:+ d1 +:+ "/" +:+ d2 +:+ "/" +:+ d3 +:+ rest)
    = Ok (Some p)
    /\ prefix p = w /\ fmt p = full
    /\ stack p = int_digits 0 d1
    /\ slot p = int_digits 0 d2
    /\ port p = int_digits 0 d3
    /\ ConfigParser.extract_interface_number
         (w +:+ d1 +:+ "/" +:+ d2 +:+ "/" +:+ d3 +:+ rest)
       = Ok (Some (int_digits 0 d1, int_digits 0 d2, int_digits 0 d3)).
Proof.
  intros Hw H1 H2 H3 Hrest.
  destruct (match_three_segments w d1 d2 d3 rest H1 H2 H3 Hrest)
    as (m & Hm & Hg).
  set (X := w +:+ d1 +:+ "/" +:+ d2 +:+ "/" +:+ d3 +:+ rest) in *.
  assert (Hparse : exists n,
    parse_interface_name X
    = Ok (Some {| original := X; vendor_type := n; prefix := w;
                  fmt := full; stack := int_digits 0 d1;
                  slot := int_digits 0 d2; port := int_digits 0 d3 |})).
  { unfold parse_interface_name, INTERFACE_PATTERNS.
    cbn [parse_with pi_pattern]. simpl in Hw.
    destruct Hw as [<-|[<-|[<-|[<-|[]]]]].
    - rewrite Hm. erewrite build_full_exact by eauto. eauto.
    - rewrite (three_segments_no_prefix "GigabitEthernet" X eq_refl).
      rewrite Hm. erewrite build_full_exact by eauto. eauto.
    - rewrite (three_segments_no_prefix "GigabitEthernet" X eq_refl).
      rewrite (three_segments_no_prefix "GE" X eq_refl).
      rewrite Hm. erewrite build_full_exact by eauto. eauto.
    - rewrite (three_segments_no_prefix "GigabitEthernet" X eq_refl).
      rewrite (three_segments_no_prefix "GE" X eq_refl).
      rewrite (three_segments_no_prefix "Ethernet" X
                 (ethernet_not_prefix_of_eth d1 _ H1)).
      rewrite Hm. erewrite build_full_exact by eauto. eauto. }
  destruct Hparse as (n & Hparse). eexists. split; [exact Hparse |].
  repeat (split; [reflexivity |]).
  unfold ConfigParser.extract_interface_number. rewrite Hparse. reflexivity.
Qed.

Lemma X3_three_segment_names_witness :
  exists p,
    parse_interface_name "Eth1/0/5" = Ok (Some p)
    /\ prefix p = "Eth" /\ fmt p = full
    /\ stack p = 1 /\ slot p = 0 /\ port p = 5
    /\ ConfigParser.extract_interface_number "Eth1/0/5"
       = Ok (Some (1, 0, 5)).
Proof.
  apply (X3_three_segment_names "Eth" "1" "0" "5" "");
    try reflexivity. simpl. tauto.
Defined.

End ExactParseFacts.

(* ------------------------------------------------------------------ *)
(** ** Two-segment names *)

Ltac invert_matches :=
  repeat match goal with
         | H : Re.matches _ (Re.Seq _ _) _ _ |- _ =>
             inversion H; subst; clear H
         | H : Re.matches _ (Re.Grp _) _ _ |- _ =>
             inversion H; subst; clear H
         | H : Re.matches _ (Re.Lit _) _ _ |- _ =>
             inversion H; subst; clear H
         | H : Re.matches _ (Re.Rep _ _) _ _ |- _ =>
             inversion H; subst; clear H
         | H : Re.lit_prefix false _ _ = Some "" |- _ =>
             apply lit_prefix_exact in H; subst
         end.

Section TwoSegmentFacts.

Import Re UniversalInterfaceParser.

Lemma matches_three_segments_exact pre w gs :
  matches false (three_segments pre) w gs ->
  exists e1 e2 e3,
    gs = [pre; e1; e2; e3]
    /\ w = pre +:+ e1 +:+ "/" +:+ e2 +:+ "/" +:+ e3
    /\ is_number e1 = true /\ is_number e2 = true /\ is_number e3 = true.
Proof.
  unfold three_segments, digits. intros H. invert_matches.
  eexists _, _, _. split; [reflexivity |]. split; [reflexivity |].
  repeat split; now apply is_number_of_rep.
Qed.

Lemma matches_two_segments_exact pre w gs :
  matches false (two_segments pre) w gs ->
  exists e1 e2,
    gs = [pre; e1; e2]
    /\ w = pre +:+ e1 +:+ "/" +:+ e2
    /\ is_number e1 = true /\ is_number e2 = true.
Proof.
  unfold two_segments, digits. intros H. invert_matches.
  eexists _, _. split; [reflexivity |]. split; [reflexivity |].
  repeat split; now apply is_number_of_rep.
Qed.

Lemma append_inv_head (w a b : string) : w +:+ a = w +:+ b -> a = b.
Proof.
  induction w as [|c w IH]; simpl; intros H; [assumption |].
  injection H as H. now apply IH.
Qed.

(** Two runs of digits that end where something other than a digit
    begins, starting at the same place, are the same run. *)
Lemma digits_split (d e a b : string) :
  forall_chars is_digit d = true -> forall_chars is_digit e = true ->
  not_starting is_digit a = true -> not_starting is_digit b = true ->
  d +:+ a = e +:+ b -> d = e /\ a = b.
Proof.
  revert e. induction d as [|x d IH]; intros e Hd He Ha Hb H.
  - destruct e as [|y e]; [now split |]. simpl in *.
    apply andb_prop in He. destruct He as [Hy _].
    subst a. simpl in Ha. now rewrite Hy in Ha.
  - destruct e as [|y e]; simpl in *.
    + apply andb_prop in Hd. destruct Hd as [Hx _].
      subst b. simpl in Hb. now rewrite Hx in Hb.
    + apply andb_prop in Hd. destruct Hd as [_ Hd].
      apply andb_prop in He. destruct He as [_ He].
      injection H as -> H.
      destruct (IH e Hd He Ha Hb H) as [-> ->]. now split.
Qed.

(** A name with two segments only is not taken for a three-segment
    one. *)
Lemma three_segments_fails_on_two (w d1 d2 rest : string) :
  is_number d1 = true -> is_number d2 = true ->
  not_starting digit_or_slash rest = true ->
  match_ false (three_segments w) (w +:+ d1 +:+ "/" +:+ d2 +:+ rest) = None.
Proof.
  intros H1 H2 Hrest.
  destruct (match_ false (three_segments w) _) as [m|] eqn:E; [|reflexivity].
  exfalso. apply match_sound in E. destruct E as (rest' & Hname & M).
  apply matches_three_segments_exact in M.
  destruct M as (e1 & e2 & e3 & _ & Hw & He1 & He2 & He3).
  rewrite Hw in Hname. rewrite !append_assoc in Hname.
  apply append_inv_head in Hname.
  apply is_number_spec in H1, H2, He1, He2.
  destruct H1 as [_ H1], H2 as [_ H2], He1 as [_ He1], He2 as [_ He2].
  assert (Hnd : not_starting is_digit rest = true).
  { destruct rest as [|c r]; [reflexivity |]. simpl in *.
    unfold digit_or_slash in Hrest.
    apply negb_true_iff in Hrest. apply orb_false_iff in Hrest.
    apply negb_true_iff. tauto. }
  destruct (digits_split d1 e1 ("/" +:+ d2 +:+ rest)
              ("/" +:+ e2 +:+ "/" +:+ e3 +:+ rest')
              H1 He1 eq_refl eq_refl Hname) as [_ Hname2].
  simpl in Hname2. injection Hname2 as Hname2.
  destruct (digits_split d2 e2 rest ("/" +:+ e3 +:+ rest')
              H2 He2 Hnd eq_refl Hname2) as [_ Hrest2].
  subst rest. discriminate Hrest.
Qed.

(** X4.  A two-segment GigabitEthernet or FastEthernet name, written
    with any two numbers and not going on with a digit or a slash, is
    read as slot and port with stack 0, after the three-segment patterns
    have been tried and have failed. *)
Theorem X4_two_segment_names (w d1 d2 rest : string) :
  In w ["GigabitEthernet"; "FastEthernet"] ->
  is_number d1 = true -> is_number d2 = true ->
  not_starting digit_or_slash rest = true ->
  exists p,
    parse_interface_name (w +:+ d1 +:+ "/" +:+ d2 +:+ rest) = Ok (Some p)
    /\ prefix p = w /\ fmt p = slot_port
    /\ stack p = 0
    /\ slot p = int_digits 0 d1
    /\ port p = int_digits 0 d2.
Proof.
  intros Hw H1 H2 Hrest.
  assert (Hnd : not_starting is_digit rest = true).
  { destruct rest as [|c r]; [reflexivity |]. simpl in *.
    unfold digit_or_slash in Hrest.
    apply negb_true_iff in Hrest. apply orb_false_iff in Hrest.
    apply negb_true_iff. tauto. }
  destruct (match_two_segments w d1 d2 rest H1 H2 Hnd) as (m & Hm & Hg).
  pose proof (three_segments_fails_on_two w d1 d2 rest H1 H2 Hrest) as H3.
  set (X := w +:+ d1 +:+ "/" +:+ d2 +:+ rest) in *.
  assert (Hparse : exists n,
    parse_interface_name X
    = Ok (Some {| original := X; vendor_type := n; prefix := w;
                  fmt := slot_port; stack := 0;
                  slot := int_digits 0 d1; port := int_digits 0 d2 |})).
  { unfold parse_interface_name, INTERFACE_PATTERNS.
    cbn [parse_with pi_pattern]. simpl in Hw.
    destruct Hw as [<-|[<-|[]]].
    - rewrite H3.
      rewrite (three_segments_no_prefix "GE" X eq_refl).
      rewrite (three_segments_no_prefix "Ethernet" X eq_refl).
      rewrite (three_segments_no_prefix "Eth" X eq_refl).
      rewrite Hm. erewrite build_slot_port_exact by eauto. eauto.
    - rewrite (three_segments_no_prefix "GigabitEthernet" X eq_refl).
      rewrite (three_segments_no_prefix "GE" X eq_refl).
      rewrite (three_segments_no_prefix "Ethernet" X eq_refl).
      rewrite (three_segments_no_prefix "Eth" X eq_refl).
      rewrite (two_segments_no_prefix "GigabitEthernet" X eq_refl).
      rewrite Hm. erewrite build_slot_port_exact by eauto. eauto. }
  destruct Hparse as (n & Hparse). eexists. split; [exact Hparse |].
  repeat split.
Qed.

Lemma X4_two_segment_names_witness :
  exists p,
    parse_interface_name "GigabitEthernet0/24" = Ok (Some p)
    /\ prefix p = "GigabitEthernet" /\ fmt p = slot_port
    /\ stack p = 0 /\ slot p = 0 /\ port p = 24.
Proof.
  apply (X4_two_segment_names "GigabitEthernet" "0" "24" "");
    try reflexivity. simpl. tauto.
Defined.

(** X5.  No pattern reads a FastEthernet name with three segments: the
    two-segment pattern takes its first two numbers as slot and port and
    the rest of the name, the third number with it, is ignored.  So for
    [FastEthernetA/B/C] the port is [B], and the translation for unit
    [u] is [GE u/A/B]. *)
Theorem X5_fastethernet_third_segment_dropped (d1 d2 d3 rest : string)
    (u : Z) :
  is_number d1 = true -> is_number d2 = true -> is_number d3 = true ->
  exists p,
    parse_interface_name
      ("FastEthernet" +:+ d1 +:+ "/" +:+ d2 +:+ "/" +:+ d3 +:+ rest)
    = Ok (Some p)
    /\ fmt p = slot_port /\ stack p = 0
    /\ slot p = int_digits 0 d1
    /\ port p = int_digits 0 d2
    /\ InterfaceTranslator.translate_interface_name
         ("FastEthernet" +:+ d1 +:+ "/" +:+ d2 +:+ "/" +:+ d3 +:+ rest) u
       = Ok (PStr ("GE " +:+ str u +:+ "/" +:+ str (int_digits 0 d1)
                     +:+ "/" +:+ str (int_digits 0 d2))).
Proof.
  intros H1 H2 H3.
  destruct (match_two_segments "FastEthernet" d1 d2
              ("/" +:+ d3 +:+ rest) H1 H2 eq_refl) as (m & Hm & Hg).
  set (X := "FastEthernet" +:+ d1 +:+ "/" +:+ d2 +:+ "/" +:+ d3 +:+ rest)
    in *.
  assert (Hparse :
    parse_interface_name X
    = Ok (Some {| original := X; vendor_type := "Cisco FastEthernet";
                  prefix := "FastEthernet"; fmt := slot_port; stack := 0;
                  slot := int_digits 0 d1; port := int_digits 0 d2 |})).
  { unfold parse_interface_name, INTERFACE_PATTERNS.
    cbn [parse_with pi_pattern].
    rewrite (three_segments_no_prefix "GigabitEthernet" X eq_refl).
    rewrite (three_segments_no_prefix "GE" X eq_refl).
    rewrite (three_segments_no_prefix "Ethernet" X eq_refl).
    rewrite (three_segments_no_prefix "Eth" X eq_refl).
    rewrite (two_segments_no_prefix "GigabitEthernet" X eq_refl).
    rewrite Hm. erewrite build_slot_port_exact by eauto. reflexivity. }
  eexists. split; [exact Hparse |]. repeat (split; [reflexivity |]).
  unfold InterfaceTranslator.translate_interface_name.
  rewrite Hparse. reflexivity.
Qed.

Lemma X5_fastethernet_third_segment_dropped_witness :
  exists p,
    parse_interface_name "FastEthernet1/0/24" = Ok (Some p)
    /\ fmt p = slot_port /\ stack p = 0 /\ slot p = 1 /\ port p = 0
    /\ InterfaceTranslator.translate_interface_name "FastEthernet1/0/24" 2
       = Ok (PStr "GE 2/1/0").
Proof.
  exact (X5_fastethernet_third_segment_dropped "1" "0" "24" "" 2
           eq_refl eq_refl eq_refl).
Defined.

End TwoSegmentFacts.

(* ------------------------------------------------------------------ *)
(** ** When two translations collide *)

Section CollisionFacts.

Import UniversalInterfaceParser InterfaceTranslator.

Lemma str_negative (p : positive) :
  str (Z.neg p) = String "-" (str (Z.pos p)).
Proof. reflexivity. Qed.

Lemma str_inj (a b : Z) : str a = str b -> a = b.
Proof.
  assert (Hpos : forall x y : Z, 0 <= x -> 0 <= y -> str x = str y -> x = y).
  { intros x y Hx Hy H.
    destruct (str_nonneg x Hx) as [_ <-].
    destruct (str_nonneg y Hy) as [_ <-]. now rewrite H. }
  assert (Hmix : forall (x : Z) (q : positive),
             0 <= x -> str x <> str (Z.neg q)).
  { intros x q Hx H. destruct (str_nonneg x Hx) as [Hn _].
    rewrite H, str_negative in Hn. discriminate Hn. }
  intros H. destruct a as [|p|p], b as [|q|q];
    try (apply Hpos; [lia | lia | exact H]).
  - exfalso. apply (Hmix 0 q); [lia | exact H].
  - exfalso. apply (Hmix (Z.pos p) q); [lia | exact H].
  - exfalso. apply (Hmix 0 p); [lia | now symmetry].
  - exfalso. apply (Hmix (Z.pos q) p); [lia | now symmetry].
  - rewrite !str_negative in H. injection H as H.
    apply Hpos in H; [|lia|lia]. congruence.
Qed.

Lemma digits_no_slash (s : string) :
  forall_chars is_digit s = true ->
  forall_chars (fun c => negb (Ascii.eqb c "/")) s = true.
Proof.
  induction s as [|c s IH]; simpl; [reflexivity |].
  intros H. apply andb_prop in H. destruct H as [Hc Hs].
  rewrite (IH Hs), andb_true_r.
  destruct (Ascii.eqb_spec c "/"%char) as [->|]; [discriminate | reflexivity].
Qed.

Lemma str_no_slash (z : Z) :
  forall_chars (fun c => negb (Ascii.eqb c "/")) (str z) = true.
Proof.
  destruct z as [|p|p].
  - reflexivity.
  - apply digits_no_slash.
    destruct (str_nonneg (Z.pos p)) as [Hn _]; [lia |].
    apply is_number_spec in Hn. tauto.
  - rewrite str_negative. simpl. apply digits_no_slash.
    destruct (str_nonneg (Z.pos p)) as [Hn _]; [lia |].
    apply is_number_spec in Hn. tauto.
Qed.

(** Texts without a slash, each followed by a slash: where they start
    together they end together. *)
Lemma split_at_slash (a1 a2 b1 b2 : string) :
  forall_chars (fun c => negb (Ascii.eqb c "/")) a1 = true ->
  forall_chars (fun c => negb (Ascii.eqb c "/")) a2 = true ->
  a1 +:+ "/" +:+ b1 = a2 +:+ "/" +:+ b2 -> a1 = a2 /\ b1 = b2.
Proof.
  revert a2. induction a1 as [|x a1 IH]; intros a2 H1 H2 H.
  - destruct a2 as [|y a2]; simpl in *.
    + injection H as ->. now split.
    + injection H as <- _. discriminate H2.
  - destruct a2 as [|y a2]; simpl in *.
    + injection H as -> _. discriminate H1.
    + apply andb_prop in H1. destruct H1 as [_ H1].
      apply andb_prop in H2. destruct H2 as [_ H2].
      injection H as -> H.
      destruct (IH a2 H1 H2 H) as [-> ->]. now split.
Qed.

(** X6.  Two recognised names, translated for units [u] and [v], get
    the same new name exactly when the units are equal and the parsed
    slots and ports are equal.  The source prefix and stack number play
    no part: on one unit, names that differ only in those collide. *)
Theorem X6_translation_collision (X Y : string) (u v : Z)
    (p q : parsed_interface) :
  parse_interface_name X = Ok (Some p) ->
  parse_interface_name Y = Ok (Some q) ->
  translate_interface_name X u = translate_interface_name Y v
  <-> u = v /\ slot p = slot q /\ port p = port q.
Proof.
  intros Hp Hq. unfold translate_interface_name. rewrite Hp, Hq.
  simpl. split.
  - intros H. injection H as H.
    destruct (split_at_slash _ _ _ _ (str_no_slash u) (str_no_slash v) H)
      as [Hu H'].
    destruct (split_at_slash _ _ _ _ (str_no_slash (slot p))
                (str_no_slash (slot q)) H') as [Hs Hpo].
    apply str_inj in Hu, Hs, Hpo. tauto.
  - intros (-> & -> & ->). reflexivity.
Qed.

Lemma X6_translation_collision_witness :
  translate_interface_name "GigabitEthernet0/0/5" 2
  = translate_interface_name "Eth1/0/5" 2
  <-> 2 = 2 /\ 0 = 0 /\ 5 = 5.
Proof.
  exact (X6_translation_collision "GigabitEthernet0/0/5" "Eth1/0/5" 2 2
           {| original := "GigabitEthernet0/0/5";
              vendor_type := "Huawei GigabitEthernet";
              prefix := "GigabitEthernet"; fmt := full;
              stack := 0; slot := 0; port := 5 |}
           {| original := "Eth1/0/5"; vendor_type := "HP Eth";
              prefix := "Eth"; fmt := full;
              stack := 1; slot := 0; port := 5 |} eq_refl eq_refl).
Defined.

End CollisionFacts.

(* ------------------------------------------------------------------ *)
(** ** sorted on a set of ints *)

Section SortFacts.







End SortFacts.

(* ------------------------------------------------------------------ *)
(** ** process_stack: the loop over the switches *)

Section StackFacts.

Import UniversalInterfaceParser Routes.

Context {W : Type} (ssh : session_layer W).













End StackFacts.

Section StackTheorems.

Import UniversalInterfaceParser Routes.

Context {W : Type} (ssh : session_layer W).


(** The sum can fall short: a switch whose session fails to close is
    entered with an error and no interface, while the record read from
    it stays in the list. *)
Lemma stack_count_gap :
  let ssh :=
    {| connect := fun _ _ _ (w : Datatypes.unit) => (Answered "SSH", w);
       get_interface_brief :=
         fun _ w => (Answered "GE0/0/1 up up", w);
       get_interface_config :=
         fun _ _ w => (Answered "interface GE0/0/1", w);
       disconnect := fun _ w => (Failed "closed", w) |} in
  match
    process_stack ssh "s" "admin"
      [{| host := Some "10.0.0.1"; password := Some "x"; unit := Some 1;
          port_count := None |}] tt
  with
  | (Some (_, summary), _) =>
      total_interfaces summary = 1%nat
      /\ counted (switches summary) = 0%nat
  | (None, _) => False
  end.
Proof. vm_compute. split; reflexivity. Qed.



End StackTheorems.

(* ------------------------------------------------------------------ *)
(** ** parse_interface_brief *)

Section BriefFacts.

Import Re UniversalInterfaceParser ConfigParser.

(** A match of a pattern of the table makes the parse succeed. *)
Lemma parse_with_none (ps : list pattern_info) (X : string) :
  parse_with ps X = Ok None ->
  Forall (fun pinfo => match_ false (pi_pattern pinfo) X = None) ps.
Proof.
  induction ps as [|pinfo ps IH]; simpl; intros H; [constructor |].
  destruct (match_ false (pi_pattern pinfo) X) as [m|] eqn:E.
  - destruct (build_result pinfo X m); discriminate.
  - constructor; [assumption | now apply IH].
Qed.

Lemma recognised_if_matched (X : string) (pinfo : pattern_info) (m : mobj) :
  In pinfo INTERFACE_PATTERNS ->
  match_ false (pi_pattern pinfo) X = Some m ->
  exists p, parse_interface_name X = Ok (Some p).
Proof.
  intros Hin Hm. destruct (parse_interface_name_spec X) as ([p|] & Hr & _);
    [eauto |].
  apply parse_with_none in Hr. rewrite List.Forall_forall in Hr.
  rewrite (Hr _ Hin) in Hm. discriminate.
Qed.

Lemma leading_digits (r : string) :
  exists lead r2, r = lead +:+ r2 /\ forall_chars is_digit lead = true
                  /\ not_starting is_digit r2 = true.
Proof.
  induction r as [|c r (lead & r2 & -> & Hl & Hr)].
  - exists "", "". repeat split.
  - destruct (is_digit c) eqn:Ec.
    + exists (String c lead), r2. simpl. rewrite Ec. tauto.
    + exists "", (String c (lead +:+ r2)). simpl. rewrite Ec. tauto.
Qed.

Lemma is_number_append (d lead : string) :
  is_number d = true -> forall_chars is_digit lead = true ->
  is_number (d +:+ lead) = true.
Proof.
  intros Hd Hl. apply is_number_spec in Hd. destruct Hd as [Hne Hd].
  apply is_number_spec. split.
  - destruct d; [contradiction | discriminate].
  - rewrite forall_chars_append, Hd, Hl. reflexivity.
Qed.

Lemma is_digit_word (c : ascii) : is_digit c = true -> word_or_slash c = true.
Proof.
  unfold word_or_slash, is_word, is_digit. intros ->. reflexivity.
Qed.

Lemma number_word (d : string) :
  is_number d = true -> forall_chars word_or_slash d = true.
Proof.
  intros H. apply is_number_spec in H. destruct H as [_ H].
  induction d as [|c d IH]; simpl in *; [reflexivity |].
  apply andb_prop in H. destruct H as [Hc Hd].
  now rewrite (is_digit_word c Hc), IH.
Qed.

Lemma three_segments_finds_names (n pre : string) :
  forall_chars word_or_slash pre = true ->
  finds_names {| pi_name := n; pi_pattern := three_segments pre;
                 pi_format := full |}.
Proof.
  intros Hpre w gs M. simpl in M.
  apply matches_three_segments_exact in M.
  destruct M as (e1 & e2 & e3 & -> & -> & H1 & H2 & H3).
  split; [reflexivity |]. split.
  - rewrite !forall_chars_append, Hpre, (number_word e1),
      (number_word e2), (number_word e3) by assumption.
    reflexivity.
  - intros r. destruct (leading_digits r) as (lead & r2 & -> & Hl & Hr).
    destruct (match_three_segments pre e1 e2 (e3 +:+ lead) r2 H1 H2
                (is_number_append _ _ H3 Hl) Hr) as (m & Hm & _).
    exists m. cbn [pi_pattern]. rewrite <- Hm. f_equal.
    now rewrite !append_assoc.
Qed.

Lemma two_segments_finds_names (n pre : string) :
  forall_chars word_or_slash pre = true ->
  finds_names {| pi_name := n; pi_pattern := two_segments pre;
                 pi_format := slot_port |}.
Proof.
  intros Hpre w gs M. simpl in M.
  apply matches_two_segments_exact in M.
  destruct M as (e1 & e2 & -> & -> & H1 & H2).
  split; [reflexivity |]. split.
  - rewrite !forall_chars_append, Hpre, (number_word e1),
      (number_word e2) by assumption.
    reflexivity.
  - intros r. destruct (leading_digits r) as (lead & r2 & -> & Hl & Hr).
    destruct (match_two_segments pre e1 (e2 +:+ lead) r2 H1
                (is_number_append _ _ H2 Hl) Hr) as (m & Hm & _).
    exists m. cbn [pi_pattern]. rewrite <- Hm. f_equal.
    now rewrite !append_assoc.
Qed.

Lemma SPECIFIC_PATTERNS_find_names : Forall finds_names SPECIFIC_PATTERNS.
Proof.
  unfold SPECIFIC_PATTERNS, INTERFACE_PATTERNS. cbn [removelast].
  repeat (constructor;
          [first [ apply three_segments_finds_names
                 | apply two_segments_finds_names ]; reflexivity |]).
  constructor.
Qed.

Lemma SPECIFIC_in_table (pinfo : pattern_info) :
  In pinfo SPECIFIC_PATTERNS -> In pinfo INTERFACE_PATTERNS.
Proof.
  unfold SPECIFIC_PATTERNS, INTERFACE_PATTERNS. cbn [removelast].
  simpl. tauto.
Qed.

Lemma rebuild_all_spec (pinfo : pattern_info) (ms : list mobj) :
  finds_names pinfo ->
  Forall (fun m => exists s', match_ false (pi_pattern pinfo) s' = Some m)
    ms ->
  rebuild_all (pi_format pinfo) (List.map groups ms)
  = Ok (List.map whole ms).
Proof.
  intros Hp. induction 1 as [|m ms (s' & Hm) _ IH]; simpl; [reflexivity |].
  apply match_sound in Hm. destruct Hm as (rest & _ & M).
  destruct (Hp _ _ M) as (-> & _). now rewrite bind_Ok, IH.
Qed.

Lemma found_by_spec (output : string) (ps : list pattern_info) :
  Forall finds_names ps ->
  exists xs, found_by ps output = Ok xs /\ Forall (found_name ps) xs.
Proof.
  induction 1 as [|pinfo ps Hp _ (ys & IHy & IHf)]; simpl.
  - exists []. split; [reflexivity | constructor].
  - unfold findall_groups.
    assert (Hms : Forall (fun m => exists s',
                            match_ false (pi_pattern pinfo) s' = Some m)
                    (finditer_from false (pi_pattern pinfo) output 0)).
    { apply List.Forall_forall. intros m Hm.
      eapply finditer_sound. exact Hm. }
    rewrite (rebuild_all_spec pinfo _ Hp Hms), bind_Ok, IHy, bind_Ok.
    eexists. split; [reflexivity |]. apply Forall_app. split.
    + apply List.Forall_forall. intros x Hx. apply in_map_iff in Hx.
      destruct Hx as (m & <- & Hm).
      rewrite List.Forall_forall in Hms. destruct (Hms m Hm) as (s' & Hs').
      apply match_sound in Hs'. destruct Hs' as (rest & _ & M).
      destruct (Hp _ _ M) as (_ & Hw & Hr).
      split; [assumption |]. exists pinfo. split; [now left | assumption].
    + eapply Forall_impl; [exact IHf |].
      intros x (Hw & q & Hq & Hr). split; [assumption |].
      exists q. split; [now right | assumption].
Qed.

Lemma insert_sorted_in (x y : string) (l : list string) :
  In y (insert_sorted x l) -> y = x \/ In y l.
Proof.
  induction l as [|z l IH]; simpl.
  - intros [<-|[]]. now left.
  - destruct (String.compare x z); simpl; intros H.
    + tauto.
    + destruct H as [<-|H]; tauto.
    + destruct H as [<-|H]; [tauto |]. destruct (IH H); tauto.
Qed.

Lemma sorted_set_in (y : string) (l : list string) :
  In y (sorted_set l) -> In y l.
Proof.
  induction l as [|x l IH]; simpl; [tauto |].
  intros H. apply insert_sorted_in in H. destruct H as [->|H]; [now left |].
  right. now apply IH.
Qed.

Lemma extract_interfaces_spec (output : string) :
  exists names,
    extract_interfaces_from_output output = Ok names
    /\ Forall (found_name SPECIFIC_PATTERNS) names.
Proof.
  unfold extract_interfaces_from_output.
  destruct (found_by_spec output _ SPECIFIC_PATTERNS_find_names)
    as (xs & -> & Hxs).
  rewrite bind_Ok. eexists. split; [reflexivity |].
  apply List.Forall_forall. intros y Hy. apply sorted_set_in in Hy.
  rewrite List.Forall_forall in Hxs. now apply Hxs.
Qed.

Lemma is_space_not_word (c : ascii) :
  is_space c = true -> word_or_slash c = false.
Proof.
  destruct c as [[] [] [] [] [] [] [] []]; vm_compute; congruence.
Qed.

(** A run of name characters that ends at a blank goes at least as far
    as any run of name characters from the same start. *)
Lemma word_run_prefix (x r0 : string) :
  forall g1 c t,
    x +:+ r0 = g1 +:+ String c t ->
    forall_chars word_or_slash x = true -> is_space c = true ->
    exists r1, g1 = x +:+ r1.
Proof.
  induction x as [|a x IH]; intros g1 c t Heq Hx Hc; [now exists g1 |].
  simpl in Hx. apply andb_prop in Hx. destruct Hx as [Ha Hx].
  destruct g1 as [|b g1]; simpl in Heq.
  - injection Heq as -> _. apply is_space_not_word in Hc. congruence.
  - injection Heq as -> Heq. destruct (IH _ _ _ Heq Hx Hc) as (r1 & ->).
    now exists r1.
Qed.

Lemma matches_brief_line w gs :
  matches false brief_line_re w gs ->
  exists g1 g2 g3 c t,
    gs = [g1; g2; g3] /\ w = g1 +:+ String c t /\ is_space c = true.
Proof.
  unfold brief_line_re. intros H. invert_matches.
  match goal with
  | H : forall_chars is_space ?sp = true, L : (1 <= String.length ?sp)%nat
    |- context [?g1 +:+ ?sp +:+ _] =>
      destruct sp as [|c sp]; [simpl in L; lia |];
      simpl in H; apply andb_prop in H; destruct H as [Hc _]
  end.
  eexists _, _, _, c, _. split; [reflexivity |]. split; [reflexivity |].
  assumption.
Qed.

Lemma brief_line_spec (names : list string) (line : string) :
  Forall (found_name SPECIFIC_PATTERNS) names ->
  exists r, brief_line names line = Ok r
            /\ forall e, r = Some e ->
                 exists p, parse_interface_name (brief_name e) = Ok (Some p).
Proof.
  induction 1 as [|x names Hx _ IH]; simpl.
  - exists None. split; [reflexivity | discriminate].
  - destruct (startswith line x) eqn:Es; [|exact IH].
    destruct (match_ false brief_line_re line) as [m|] eqn:Em.
    2:{ exists None. split; [reflexivity | discriminate]. }
    apply startswith_true in Es. destruct Es as (r0 & Hline).
    destruct (match_sound _ _ _ _ Em) as (rest & Hw & M).
    apply matches_brief_line in M.
    destruct M as (g1 & g2 & g3 & c & t & Hg & Hwm & Hc).
    rewrite Hg. simpl. eexists. split; [reflexivity |].
    intros e [= <-]. simpl.
    destruct Hx as (Hxw & pinfo & Hin & Hr).
    rewrite Hwm, append_assoc in Hw. rewrite Hline in Hw. simpl in Hw.
    destruct (word_run_prefix _ _ _ _ _ Hw Hxw Hc) as (r1 & ->).
    destruct (Hr r1) as (m' & Hm').
    eapply recognised_if_matched; [apply SPECIFIC_in_table |]; eassumption.
Qed.

Lemma brief_lines_spec (names : list string) (lines : list string) :
  Forall (found_name SPECIFIC_PATTERNS) names ->
  exists l, brief_lines names lines = Ok l
            /\ Forall (fun e => exists p,
                         parse_interface_name (brief_name e) = Ok (Some p)) l
            /\ (length l <= length lines)%nat.
Proof.
  intros Hn. induction lines as [|line lines (l & IHl & IHf & IHn)]; simpl.
  - exists []. repeat split; constructor.
  - destruct (brief_line_spec names (strip line) Hn) as (r & -> & Hr).
    rewrite bind_Ok, IHl, bind_Ok. eexists. split; [reflexivity |].
    destruct r as [e|]; simpl.
    + split; [constructor; eauto | lia].
    + split; [assumption | lia].
Qed.

(** X10.  [parse_interface_brief] returns on every text, with at most
    one entry per line, and every name it lists is recognised by
    [parse_interface_name]: the test [if parsed] of the routes never
    drops a listed interface. *)
Theorem X10_brief_names_recognised (output : string) :
  exists l,
    parse_interface_brief output = Ok l
    /\ Forall (fun e => exists p,
                 parse_interface_name (brief_name e) = Ok (Some p)) l
    /\ (length l <= length (split_on newline output))%nat.
Proof.
  unfold parse_interface_brief.
  destruct (extract_interfaces_spec output) as (names & -> & Hn).
  rewrite bind_Ok. now apply brief_lines_spec.
Qed.

End BriefFacts.

(* ------------------------------------------------------------------ *)
(** ** parse_layer3_excel: the loop over the rows *)

Section ImporterLoopFacts.

Import Re Routes.





End ImporterLoopFacts.

(* ------------------------------------------------------------------ *)
(** ** generate_layer3_config *)

Section Layer3ConfigFacts.

Import Routes.







Lemma eth_trunk_link_lines (n : Z) :
  count_line " port link-type trunk" (eth_trunk_lines n) = 1%nat
  /\ count_line " port link-type access" (eth_trunk_lines n) = 0%nat.
Proof. split; reflexivity. Qed.





End Layer3ConfigFacts.

(* ------------------------------------------------------------------ *)
(** ** Lists of numbers in a line *)

Section NumberListFacts.

Import Re Routes.

Lemma digits_number_finder : number_finder digits.
Proof.
  split; [|split].
  - intros d rest Hd Hrest. apply is_number_spec in Hd.
    destruct Hd as [Hne Hd].
    destruct (reps_app is_digit d rest Hd Hrest) as (tl & Hreps).
    unfold match_, digits. cbn [run]. rewrite Hreps.
    assert (Hlen : (1 <=? String.length d)%nat = true).
    { destruct d; [contradiction | reflexivity]. }
    cbn [List.filter fst snd]. rewrite Hlen. cbn [List.map fst snd].
    rewrite consumed_append. eexists. repeat split.
  - intros c s Hc. unfold match_, digits. simpl. now rewrite Hc.
  - reflexivity.
Qed.

Lemma number_re_number_finder : number_finder number_re.
Proof.
  split; [|split].
  - intros d rest Hd Hrest.
    destruct (run_grp_digits false d rest [] Hd Hrest) as (tl & Hrun).
    unfold match_, number_re. rewrite Hrun. rewrite consumed_append.
    eexists. repeat split.
  - intros c s Hc. unfold match_, number_re, digits. simpl. now rewrite Hc.
  - reflexivity.
Qed.

Lemma finditer_skip ic r (a s : string) :
  finditer_from ic r (a +:+ s) (String.length a) = finditer_from ic r s 0.
Proof.
  induction a as [|c a IH]; [reflexivity |]. exact IH.
Qed.

Lemma findall_number r (d rest : string) :
  number_finder r ->
  is_number d = true -> not_starting is_digit rest = true ->
  findall false r (d +:+ rest) = d :: findall false r rest.
Proof.
  intros (Hr & _ & _) Hd Hrest.
  destruct (Hr d rest Hd Hrest) as (m & Hm & Hw & Hg).
  unfold findall. destruct d as [|c d]; [discriminate |].
  cbn [String.append finditer_from]. cbn [String.append] in Hm.
  rewrite Hm. cbn [List.map]. rewrite Hg. f_equal.
  rewrite Hw.
  replace (String.length (String c d) - 1)%nat with (String.length d)
    by (simpl; lia).
  now rewrite finditer_skip.
Qed.

Lemma findall_other r (c : ascii) (s : string) :
  number_finder r -> is_digit c = false ->
  findall false r (String c s) = findall false r s.
Proof.
  intros (_ & Hr & _) Hc. unfold findall. cbn [finditer_from].
  now rewrite (Hr c s Hc).
Qed.

Lemma findall_empty r : number_finder r -> findall false r "" = [].
Proof. intros (_ & _ & Hr). unfold findall. simpl. now rewrite Hr. Qed.

(** The numbers of a list written with blanks between them are found
    again, whatever text without a digit stands before. *)
Lemma findall_join r (ds : list string) :
  number_finder r -> Forall (fun d => is_number d = true) ds ->
  findall false r (join " " ds) = ds.
Proof.
  intros Hr. induction 1 as [|d ds Hd Hds IH]; [now apply findall_empty |].
  destruct ds as [|d2 ds].
  - simpl. rewrite <- (append_nil_r d) at 1.
    rewrite findall_number by (assumption || reflexivity).
    now rewrite findall_empty.
  - change (join " " (d :: d2 :: ds))
      with (d +:+ String " " (join " " (d2 :: ds))).
    rewrite findall_number by (assumption || reflexivity).
    rewrite findall_other by (assumption || reflexivity).
    now rewrite IH.
Qed.

Lemma findall_after r (pre s : string) :
  number_finder r ->
  forall_chars (fun c => negb (is_digit c)) pre = true ->
  findall false r (pre +:+ s) = findall false r s.
Proof.
  intros Hr. induction pre as [|c pre IH]; intros H; [reflexivity |].
  simpl in H. apply andb_prop in H. destruct H as [Hc Hpre].
  apply negb_true_iff in Hc. cbn [String.append].
  rewrite findall_other by assumption. now apply IH.
Qed.

Lemma strs_numbers (vs : list Z) :
  Forall (fun z => 0 <= z) vs ->
  Forall (fun d => is_number d = true) (List.map str vs)
  /\ List.map (int_digits 0) (List.map str vs) = vs.
Proof.
  induction 1 as [|v vs Hv _ [IH1 IH2]]; simpl; [split; constructor |].
  destruct (str_nonneg v Hv) as [Hn Hi].
  split; [now constructor |]. now rewrite Hi, IH2.
Qed.

(** [p in s] means that [s] holds [p]. *)
Lemma contains_true (p s : string) :
  contains p s = true -> exists a b, s = a +:+ p +:+ b.
Proof.
  induction s as [|c s IH]; simpl; intros H.
  - apply orb_true_iff in H. destruct H as [H|H]; [|discriminate].
    apply startswith_true in H. destruct H as (r & ->). now exists "", r.
  - apply orb_true_iff in H. destruct H as [H|H].
    + apply startswith_true in H. destruct H as (r & ->). now exists "", r.
    + destruct (IH H) as (a & b & ->). now exists (String c a), b.
Qed.

(** A text made of characters of one class holds no keyword with a
    character outside the class. *)
Lemma contains_class (K : ascii -> bool) (p s : string) :
  forall_chars K s = true -> forall_chars K p = false ->
  contains p s = false.
Proof.
  intros Hs Hp. apply not_true_is_false. intros H.
  apply contains_true in H. destruct H as (a & b & ->).
  rewrite !forall_chars_append in Hs.
  apply andb_prop in Hs. destruct Hs as [_ Hs].
  apply andb_prop in Hs. destruct Hs as [Hs _]. congruence.
Qed.

Lemma join_digit_or_blank (ds : list string) :
  Forall (fun d => is_number d = true) ds ->
  forall_chars digit_or_blank (join " " ds) = true.
Proof.
  assert (Hd : forall d, is_number d = true ->
                         forall_chars digit_or_blank d = true).
  { intros d H. apply is_number_spec in H. destruct H as [_ H].
    induction d as [|c d IH]; [reflexivity |]. simpl in *.
    apply andb_prop in H. destruct H as [Hc H].
    unfold digit_or_blank at 1. rewrite Hc. simpl. now apply IH. }
  induction 1 as [|d ds H _ IH]; [reflexivity |].
  destruct ds as [|d2 ds]; [now apply Hd |].
  change (join " " (d :: d2 :: ds))
    with (d +:+ String " " (join " " (d2 :: ds))).
  rewrite forall_chars_append, (Hd d H). simpl. exact IH.
Qed.

End NumberListFacts.

Section CleanFacts.

Import Re.

Lemma rstrip_word (s : string) :
  forall_chars no_space s = true -> rstrip s = s.
Proof.
  induction s as [|c s IH]; [reflexivity |]. simpl. intros H.
  apply andb_prop in H. destruct H as [Hc Hs]. rewrite (IH Hs).
  apply negb_true_iff in Hc. rewrite Hc. now destruct s.
Qed.

Lemma rstrip_app (a t : string) :
  rstrip t = t -> t <> "" -> rstrip (a +:+ t) = a +:+ t.
Proof.
  intros Ht Hne. induction a as [|c a IH]; [exact Ht |].
  cbn [String.append rstrip]. rewrite IH.
  destruct (a +:+ t) eqn:E; [|reflexivity].
  destruct a; [simpl in E; contradiction | discriminate].
Qed.

Lemma number_no_space (d : string) :
  is_number d = true -> forall_chars no_space d = true.
Proof.
  intros H. apply is_number_spec in H. destruct H as [_ H].
  induction d as [|c d IH]; [reflexivity |]. simpl in *.
  apply andb_prop in H. destruct H as [Hc H].
  unfold no_space at 1. now rewrite (is_digit_not_space c Hc), IH.
Qed.

Lemma rstrip_number (d : string) : is_number d = true -> rstrip d = d.
Proof. intros H. now apply rstrip_word, number_no_space. Qed.

Lemma number_nonempty (d : string) : is_number d = true -> d <> "".
Proof. intros H. now apply is_number_spec in H. Qed.

Lemma rstrip_join (ds : list string) :
  ds <> [] -> Forall (fun d => is_number d = true) ds ->
  rstrip (join " " ds) = join " " ds /\ join " " ds <> "".
Proof.
  intros Hne H. induction H as [|d ds Hd Hds IH]; [contradiction |].
  destruct ds as [|d2 ds].
  - simpl. split; [now apply rstrip_number | now apply number_nonempty].
  - destruct IH as [IH1 IH2]; [discriminate |].
    change (join " " (d :: d2 :: ds))
      with (d +:+ String " " (join " " (d2 :: ds))).
    split.
    + change (d +:+ String " " (join " " (d2 :: ds)))
        with (d +:+ " " +:+ join " " (d2 :: ds)).
      rewrite <- append_assoc. now apply rstrip_app.
    + destruct d; discriminate.
Qed.

Lemma lower_number (d : string) :
  forall_chars is_digit d = true -> lower d = d.
Proof.
  induction d as [|c d IH]; [reflexivity |]. simpl. intros H.
  apply andb_prop in H. destruct H as [Hc H]. rewrite (IH H). f_equal.
  unfold is_digit in Hc. unfold lower_char.
  apply andb_prop in Hc. destruct Hc as [H1 H2].
  apply Nat.leb_le in H1. apply Nat.leb_le in H2.
  repeat match goal with
         | |- context [(?a <=? ?b)%nat] =>
             destruct (Nat.leb_spec a b); try lia
         end; reflexivity.
Qed.

End CleanFacts.

(* ------------------------------------------------------------------ *)
(** ** What generate_layer3_config writes, read by the importer *)

Section Layer3ReadBack.

Import Re Routes.

(** A generated line: a blank, a keyword, a value that does not end in
    a blank.  [strip] takes the blank off. *)
Lemma strip_line (kw t : string) :
  kw <> "" -> not_starting is_space kw = true ->
  rstrip t = t -> t <> "" ->
  strip (String " " (kw +:+ t)) = kw +:+ t.
Proof.
  intros Hne Hkw Ht Htne. unfold strip.
  destruct kw as [|c kw]; [contradiction |].
  simpl in Hkw. apply negb_true_iff in Hkw.
  cbn [lstrip String.append]. change (is_space " ") with true. cbv iota.
  rewrite Hkw. change (String c (kw +:+ t)) with (String c kw +:+ t).
  now apply rstrip_app.
Qed.

Lemma cell_text_line (kw t : string) :
  kw <> "" -> not_starting is_space kw = true ->
  rstrip t = t -> t <> "" ->
  cell_text (CStr (String " " (kw +:+ t))) = Some (kw +:+ t).
Proof.
  intros. unfold cell_text. cbn [cell_truthy cell_str String.eqb negb].
  now rewrite strip_line.
Qed.

(** [pvid\s+vlan\s+(\d+)] on [pvid vlan N]: the group is [N]. *)
Lemma match_pvid_number (d : string) :
  is_number d = true ->
  exists m, match_ false pvid_re ("pvid vlan " +:+ d) = Some m
            /\ groups m = [d].
Proof.
  intros H. unfold match_, pvid_re, digits. simpl.
  rewrite (reps_space_number d H). simpl.
  pose proof H as H'. apply is_number_spec in H'. destruct H' as [Hne Hd].
  destruct (reps_all is_digit d Hd) as (tl & ->). simpl.
  destruct d as [|x d]; [contradiction |]. simpl.
  eexists. split; [reflexivity |]. simpl. f_equal.
  exact (consumed_all (String x d)).
Qed.

Lemma parse_pvid_line (d : string) :
  is_number d = true ->
  parse_pvid (Some ("port trunk pvid vlan " +:+ d))
  = Ok (Some (int_digits 0 d)).
Proof.
  intros Hd. unfold parse_pvid. cbn [String.append String.eqb negb andb].
  assert (Hc : contains "pvid"
                 (lower ("port trunk pvid vlan " +:+ d)) = true)
    by reflexivity.
  cbn [String.append] in Hc. rewrite Hc.
  unfold search_int.
  repeat (rewrite search_cons_none by (vm_compute; reflexivity)).
  destruct (match_pvid_number d Hd) as (m & Hm & Hg).
  cbn [String.append] in Hm. rewrite (search_here _ _ _ _ Hm), Hg.
  simpl. destruct (int_number d Hd) as [-> _]. reflexivity.
Qed.

Lemma parse_vlan_line (kw d : string) :
  In kw ["port trunk pvid vlan "; "port default vlan "] ->
  is_number d = true ->
  parse_vlan (Some (kw +:+ d)) = Ok (Some (int_digits 0 d)).
Proof.
  intros Hkw Hd. unfold parse_vlan, search_int. simpl in Hkw.
  pose proof (search_here _ _ _ _ (match_vlan_number d Hd)) as Hs.
  cbn [String.append] in Hs.
  destruct Hkw as [<-|[<-|[]]]; cbn [String.append String.eqb negb];
    repeat (rewrite search_cons_none by (vm_compute; reflexivity));
    rewrite Hs; simpl;
    destruct (int_number d Hd) as [-> _]; reflexivity.
Qed.

Lemma parse_pvid_access_line (d : string) :
  is_number d = true ->
  parse_pvid (Some ("port default vlan " +:+ d)) = Ok None.
Proof.
  intros Hd. apply is_number_spec in Hd. destruct Hd as [_ Hd].
  unfold parse_pvid. cbn [String.append String.eqb negb andb lower].
  repeat (rewrite contains_cons_false by reflexivity).
  rewrite lower_number by assumption.
  now rewrite contains_number.
Qed.

Lemma parse_trunk_vlans_line (ds : list string) :
  ds <> [] -> Forall (fun d => is_number d = true) ds ->
  parse_trunk_vlans (Some ("port trunk allow-pass vlan " +:+ join " " ds))
  = Ok (Some (List.map (int_digits 0) ds)).
Proof.
  intros Hne Hds. unfold parse_trunk_vlans.
  cbn [String.append String.eqb negb andb].
  assert (Hc : contains "allow-pass"
                 (lower ("port trunk allow-pass vlan " +:+ join " " ds))
               = true) by reflexivity.
  cbn [String.append] in Hc. rewrite Hc.
  assert (Hn : contains "2 to 4094"
                 ("port trunk allow-pass vlan " +:+ join " " ds) = false).
  { cbn [String.append].
    repeat (rewrite contains_cons_false by reflexivity).
    apply (contains_class digit_or_blank);
      [now apply join_digit_or_blank | reflexivity]. }
  cbn [String.append] in Hn. rewrite Hn. cbn [negb].
  change (String "p" ?x) with ("port trunk allow-pass vlan " +:+ join " " ds).
  rewrite (findall_after number_re "port trunk allow-pass vlan " _
             number_re_number_finder eq_refl).
  rewrite (findall_join _ _ number_re_number_finder Hds).
  destruct ds as [|d ds]; [contradiction |].
  rewrite ints_numbers; [reflexivity |].
  intros x Hx. rewrite List.Forall_forall in Hds. now apply Hds.
Qed.

(** X14.  A trunk port outside any Eth-Trunk, with a PVID and either no
    VLAN list or a list of VLANs that is not empty: the three lines
    [generate_layer3_config] writes for it, put in the cells of the
    sheet, are read back by the importer to the link type, the PVID and
    the VLAN list of the mapping ([None] for the line [2 to 4094]).  The
    importer reads the PVID line as the port's [vlan] too. *)
Theorem X14_layer3_trunk_lines_read_back (m : mapping) (p : Z) :
  link_type m = Some "trunk" ->
  pvid m = Some p -> 0 < p ->
  match trunk_vlans m with
  | Some vs => vs <> [] /\ Forall (fun z => 0 <= z) vs
  | None => True
  end ->
  exists l1 l2 l3,
    link_lines m = [l1; l2; l3]
    /\ parse_link_type (cell_text (CStr l1)) = link_type m
    /\ parse_pvid (cell_text (CStr l2)) = Ok (pvid m)
    /\ parse_vlan (cell_text (CStr l2)) = Ok (pvid m)
    /\ parse_trunk_vlans (cell_text (CStr l3)) = Ok (trunk_vlans m).
Proof.
  intros Hlt Hp Hpos Htv.
  destruct (str_nonneg p ltac:(lia)) as [Hpn Hpi].
  assert (Hl2 : cell_text (CStr (" port trunk pvid vlan " +:+ str p))
                = Some ("port trunk pvid vlan " +:+ str p)).
  { apply (cell_text_line "port trunk pvid vlan " (str p));
      [discriminate | reflexivity | now apply rstrip_number
      | now apply number_nonempty]. }
  unfold link_lines. rewrite Hlt, Hp.
  cbn [String.eqb Ascii.eqb Bool.eqb truthy_int default].
  change (id p) with p. destruct (Z.eqb_spec p 0) as [->|_]; [lia |].
  cbn [negb List.app].
  assert (Hl3 : exists l3,
    match trunk_vlans m with
    | Some (v :: vs) =>
        [" port trunk allow-pass vlan "
           +:+ join " " (List.map str (v :: vs))]
    | _ => [" port trunk allow-pass vlan 2 to 4094"]
    end = [l3]
    /\ parse_trunk_vlans (cell_text (CStr l3)) = Ok (trunk_vlans m)).
  { destruct (trunk_vlans m) as [vs|]; [|eexists; split; reflexivity].
    destruct Htv as [Hne Hvs].
    destruct (strs_numbers vs Hvs) as [Hds Hdi].
    assert (Hne' : List.map str vs <> []) by (now destruct vs).
    destruct (rstrip_join _ Hne' Hds) as [Hr Hj].
    destruct vs as [|v vs]; [contradiction |].
    eexists. split; [reflexivity |].
    assert (Hc : cell_text
                   (CStr (" port trunk allow-pass vlan "
                            +:+ join " " (List.map str (v :: vs))))
                 = Some ("port trunk allow-pass vlan "
                           +:+ join " " (List.map str (v :: vs)))).
    { apply (cell_text_line "port trunk allow-pass vlan ");
        [discriminate | reflexivity | assumption | assumption]. }
    now rewrite Hc, parse_trunk_vlans_line, Hdi. }
  destruct Hl3 as (l3 & -> & Hl3).
  eexists _, _, l3. split; [reflexivity |].
  split; [reflexivity |]. rewrite Hl2.
  split; [now rewrite parse_pvid_line, Hpi |].
  split; [|exact Hl3].
  rewrite (parse_vlan_line "port trunk pvid vlan " (str p)), Hpi;
    [reflexivity | simpl; tauto | assumption].
Qed.

Lemma X14_layer3_trunk_lines_read_back_witness :
  exists l1 l2 l3,
    link_lines {| old_port := None; new_port := "XGigabitEthernet1/0/1";
                  description := None; eth_trunk := None;
                  link_type := Some "trunk"; vlan := None; pvid := Some 7;
                  trunk_vlans := Some [10; 20; 30] |} = [l1; l2; l3]
    /\ parse_link_type (cell_text (CStr l1)) = Some "trunk"
    /\ parse_pvid (cell_text (CStr l2)) = Ok (Some 7)
    /\ parse_vlan (cell_text (CStr l2)) = Ok (Some 7)
    /\ parse_trunk_vlans (cell_text (CStr l3)) = Ok (Some [10; 20; 30]).
Proof.
  apply (X14_layer3_trunk_lines_read_back
           {| old_port := None; new_port := "XGigabitEthernet1/0/1";
              description := None; eth_trunk := None;
              link_type := Some "trunk"; vlan := None; pvid := Some 7;
              trunk_vlans := Some [10; 20; 30] |} 7);
    [reflexivity | reflexivity | lia |].
  simpl. split; [discriminate | repeat constructor; lia].
Defined.

(** X15.  An access port outside any Eth-Trunk, with a VLAN: the two
    lines [generate_layer3_config] writes for it are read back by the
    importer to the link type and the VLAN of the mapping, with no PVID
    and no VLAN list. *)
Theorem X15_layer3_access_lines_read_back (m : mapping) (v : Z) :
  link_type m = Some "access" -> vlan m = Some v -> 0 < v ->
  exists l1 l2,
    link_lines m = [l1; l2]
    /\ parse_link_type (cell_text (CStr l1)) = link_type m
    /\ parse_vlan (cell_text (CStr l2)) = Ok (vlan m)
    /\ parse_pvid (cell_text (CStr l2)) = Ok None
    /\ parse_trunk_vlans (cell_text (CStr l2)) = Ok None.
Proof.
  intros Hlt Hv Hpos.
  destruct (str_nonneg v ltac:(lia)) as [Hvn Hvi].
  assert (Hl2 : cell_text (CStr (" port default vlan " +:+ str v))
                = Some ("port default vlan " +:+ str v)).
  { apply (cell_text_line "port default vlan " (str v));
      [discriminate | reflexivity | now apply rstrip_number
      | now apply number_nonempty]. }
  unfold link_lines. rewrite Hlt, Hv.
  cbn [String.eqb Ascii.eqb Bool.eqb truthy_int default].
  change (id v) with v. destruct (Z.eqb_spec v 0) as [->|_]; [lia |].
  cbn [negb List.app].
  eexists _, _. split; [reflexivity |]. split; [reflexivity |].
  rewrite Hl2.
  split.
  { rewrite (parse_vlan_line "port default vlan " (str v)), Hvi;
      [reflexivity | simpl; tauto | assumption]. }
  split; [now apply parse_pvid_access_line |].
  unfold parse_trunk_vlans. cbn [String.append String.eqb negb andb lower].
  apply is_number_spec in Hvn. destruct Hvn as [_ Hvn].
  repeat (rewrite contains_cons_false by reflexivity).
  rewrite lower_number by assumption.
  now rewrite contains_number.
Qed.

Lemma X15_layer3_access_lines_read_back_witness :
  exists l1 l2,
    link_lines {| old_port := None; new_port := "XGigabitEthernet1/0/2";
                  description := None; eth_trunk := None;
                  link_type := Some "access"; vlan := Some 100;
                  pvid := None; trunk_vlans := None |} = [l1; l2]
    /\ parse_link_type (cell_text (CStr l1)) = Some "access"
    /\ parse_vlan (cell_text (CStr l2)) = Ok (Some 100)
    /\ parse_pvid (cell_text (CStr l2)) = Ok None
    /\ parse_trunk_vlans (cell_text (CStr l2)) = Ok None.
Proof.
  apply (X15_layer3_access_lines_read_back
           {| old_port := None; new_port := "XGigabitEthernet1/0/2";
              description := None; eth_trunk := None;
              link_type := Some "access"; vlan := Some 100;
              pvid := None; trunk_vlans := None |} 100);
    [reflexivity | reflexivity | lia].
Defined.

End Layer3ReadBack.

(* ------------------------------------------------------------------ *)
(** ** generate_simple_config, read by parse_interface_config *)

Section LinesFacts.

Import Re ConfigParser TemplateGenerator.

Lemma split_on_line (x : string) :
  forall_chars not_newline x = true -> split_on newline x = [x].
Proof.
  induction x as [|c x IH]; [reflexivity |]. simpl. intros H.
  apply andb_prop in H. destruct H as [Hc Hx].
  apply negb_true_iff in Hc. rewrite Hc, (IH Hx). reflexivity.
Qed.

Lemma split_on_first_line (x rest : string) :
  forall_chars not_newline x = true ->
  split_on newline (x +:+ String newline rest) = x :: split_on newline rest.
Proof.
  induction x as [|c x IH]; intros H.
  - cbn [String.append split_on]. now rewrite Ascii.eqb_refl.
  - simpl in H. apply andb_prop in H. destruct H as [Hc Hx].
    apply negb_true_iff in Hc. cbn [String.append split_on].
    now rewrite Hc, (IH Hx).
Qed.

(** [text.split('\n')] gives back the lines joined with ['\n'], when
    there is a line and no line holds a line break. *)
Lemma split_on_join (lines : list string) :
  lines <> [] -> Forall (fun l => forall_chars not_newline l = true) lines ->
  split_on newline (join (String newline "") lines) = lines.
Proof.
  intros Hne H. induction H as [|x lines Hx Hl IH]; [contradiction |].
  destruct lines as [|y lines]; [now apply split_on_line |].
  change (join (String newline "") (x :: y :: lines))
    with (x +:+ String newline (join (String newline "") (y :: lines))).
  rewrite split_on_first_line by assumption.
  now rewrite IH.
Qed.

End LinesFacts.

Section TokenFacts.

Import Re ConfigParser TemplateGenerator.

Lemma is_token_spec (s : string) :
  is_token s = true <-> s <> "" /\ forall_chars no_space s = true.
Proof.
  unfold is_token. rewrite andb_true_iff, negb_true_iff, String.eqb_neq.
  reflexivity.
Qed.

Lemma no_space_not_newline (s : string) :
  forall_chars no_space s = true -> forall_chars not_newline s = true.
Proof.
  induction s as [|c s IH]; [reflexivity |]. simpl. intros H.
  apply andb_prop in H. destruct H as [Hc Hs]. rewrite (IH Hs), andb_true_r.
  unfold not_newline. destruct (Ascii.eqb_spec c newline) as [->|];
    [discriminate | reflexivity].
Qed.

Lemma split_ws_token (s : string) : is_token s = true -> split_ws s = [s].
Proof.
  intros H. apply is_token_spec in H. destruct H as [Hne H].
  induction s as [|c s IH]; [contradiction |].
  simpl in H. apply andb_prop in H. destruct H as [Hc Hs].
  apply negb_true_iff in Hc. cbn [split_ws]. rewrite Hc.
  destruct s as [|d s]; [reflexivity |].
  pose proof Hs as Hs'. simpl in Hs'. apply andb_prop in Hs'.
  destruct Hs' as [Hd _]. apply negb_true_iff in Hd. rewrite Hd.
  rewrite IH; [reflexivity | discriminate | assumption].
Qed.

Lemma split_ws_keyword (kw s : string) :
  forall c, forall_chars no_space (String c kw) = true ->
            is_token s = true ->
            split_ws (String c kw +:+ String " " s) = [String c kw; s].
Proof.
  intros c Hkw Hs. revert c Hkw.
  induction kw as [|d kw IH]; intros c Hkw; simpl in Hkw;
    apply andb_prop in Hkw; destruct Hkw as [Hc Hkw];
    apply negb_true_iff in Hc.
  - cbn [String.append split_ws]. rewrite Hc.
    change (is_space " ") with true. cbv iota.
    now rewrite (split_ws_token s Hs).
  - pose proof Hkw as Hkw'. simpl in Hkw'. apply andb_prop in Hkw'.
    destruct Hkw' as [Hd _]. apply negb_true_iff in Hd.
    specialize (IH d Hkw). cbn [String.append] in IH |- *.
    cbn [split_ws]. rewrite Hc, Hd. cbn [split_ws] in IH.
    rewrite Hd in IH. rewrite IH. reflexivity.
Qed.

(** A line made of a keyword, a blank and a word. *)
Lemma keyword_line (kw s : string) :
  is_token kw = true -> is_token s = true ->
  strip (kw +:+ String " " s) = kw +:+ String " " s
  /\ split_ws (kw +:+ String " " s) = [kw; s].
Proof.
  intros Hkw Hs.
  apply is_token_spec in Hkw. destruct Hkw as [Hkne Hkw].
  destruct kw as [|c kw]; [contradiction |].
  split; [|now apply split_ws_keyword].
  apply is_token_spec in Hs. destruct Hs as [Hne Hs].
  unfold strip.
  assert (Hl : lstrip (String c kw +:+ String " " s)
               = String c kw +:+ String " " s).
  { simpl in Hkw |- *.
    apply andb_prop in Hkw. destruct Hkw as [Hc _].
    apply negb_true_iff in Hc. now rewrite Hc. }
  rewrite Hl.
  change (String c kw +:+ String " " s) with (String c kw +:+ " " +:+ s).
  rewrite <- append_assoc. apply rstrip_app; [|assumption].
  now apply rstrip_word.
Qed.

End TokenFacts.

Section ReplaceFacts.

Import Re ConfigParser TemplateGenerator.

Lemma replace_none (old new d : string) :
  contains old d = false -> replace_from old new d 0 = d.
Proof.
  induction d as [|c d IH]; [reflexivity |]. cbn [contains replace_from].
  intros H. apply orb_false_iff in H. destruct H as [H1 H2].
  now rewrite H1, (IH H2).
Qed.

Lemma replace_skip (old new a d : string) :
  d <> "" ->
  replace_from old new (a +:+ d) (String.length a) = replace_from old new d 0.
Proof.
  intros Hd. induction a as [|c a IH]; [reflexivity |]. exact IH.
Qed.

(** [(old + d).replace(old, "")] is [d] when [old] is not in [d]. *)
Lemma replace_prefix (old d : string) :
  old <> "" -> d <> "" -> contains old d = false ->
  replace (old +:+ d) old "" = d.
Proof.
  intros Hold Hd Hc. unfold replace. destruct old as [|a old]; [contradiction |].
  cbn [String.append replace_from].
  change (String a (old +:+ d)) with (String a old +:+ d).
  rewrite startswith_append. cbn [String.append].
  replace (String.length (String a old) - 1)%nat with (String.length old)
    by (simpl; lia).
  rewrite replace_skip by assumption.
  now apply replace_none.
Qed.

Lemma lstrip_length (s : string) :
  lstrip s = s \/ (String.length (lstrip s) < String.length s)%nat.
Proof.
  induction s as [|c s IH]; [now left |]. simpl.
  destruct (is_space c); [|now left]. right. destruct IH as [->|]; lia.
Qed.

Lemma rstrip_length (s : string) :
  (String.length (rstrip s) <= String.length s)%nat.
Proof.
  induction s as [|c s IH]; [simpl; lia |]. simpl.
  destruct (rstrip s); [destruct (is_space c) |]; simpl in *; lia.
Qed.

(** A string [strip] leaves alone has no blank at either end. *)
Lemma strip_fixed (d : string) :
  strip d = d -> lstrip d = d /\ rstrip d = d.
Proof.
  unfold strip. intros H.
  destruct (lstrip_length d) as [Hl|Hl].
  - rewrite Hl in H. tauto.
  - pose proof (rstrip_length (lstrip d)) as Hr. rewrite H in Hr. lia.
Qed.

End ReplaceFacts.

Section WrittenLineFacts.

Import Re ConfigParser TemplateGenerator.

Ltac raw_kept :=
  match goal with
  | |- context [negb (String.eqb ?l "") && negb (startswith ?l "#")] =>
      change (negb (String.eqb l "") && negb (startswith l "#")) with true
  end.

Lemma parse_line_name (c : config) (n : string) :
  is_token n = true ->
  parse_line c ("interface " +:+ n)
  = Ok (append_raw_config (set_name c n) ("interface " +:+ n)).
Proof.
  intros Hn.
  destruct (keyword_line "interface" n eq_refl Hn) as [Hs Hw].
  change ("interface" +:+ String " " n) with ("interface " +:+ n) in Hs, Hw.
  unfold parse_line. rewrite Hs. unfold classify.
  rewrite startswith_append, Hw. cbn [index nth_error]. rewrite bind_Ok.
  cbn [String.append]. raw_kept. reflexivity.
Qed.

Lemma parse_line_description (c : config) (d : string) :
  plain_description d = true ->
  parse_line c (" description " +:+ d)
  = Ok (append_raw_config (set_description c d) ("description " +:+ d)).
Proof.
  unfold plain_description. rewrite !andb_true_iff, !negb_true_iff.
  intros (((Hne & Hs) & _) & Hc).
  apply String.eqb_neq in Hne. apply String.eqb_eq in Hs.
  destruct (strip_fixed d Hs) as [_ Hr].
  unfold parse_line.
  change (" description " +:+ d) with (String " " ("description " +:+ d)).
  rewrite (strip_line "description " d) by (assumption || discriminate
                                            || reflexivity).
  unfold classify.
  assert (H1 : startswith ("description " +:+ d) "interface " = false)
    by reflexivity.
  rewrite H1, startswith_append, replace_prefix by (assumption || discriminate).
  rewrite bind_Ok. cbn [String.append]. raw_kept. reflexivity.
Qed.

(** A word holds none of the phrases the chain looks for: each has a
    blank in it. *)
Lemma no_phrase_in_token (kw s p : string) :
  In kw ["speed "; "duplex "] ->
  In p ["port link-type"; "port default vlan"; "port access vlan";
        "port trunk allow-pass vlan"; "port trunk permit vlan"] ->
  is_token s = true -> contains p (kw +:+ s) = false.
Proof.
  intros Hkw Hp Hs. apply is_token_spec in Hs. destruct Hs as [_ Hs].
  simpl in Hkw, Hp.
  destruct Hkw as [<-|[<-|[]]];
    destruct Hp as [<-|[<-|[<-|[<-|[<-|[]]]]]];
    cbn [String.append];
    repeat (rewrite contains_cons_false by reflexivity);
    now apply (contains_class no_space).
Qed.

Lemma classify_token_line (c : config) (kw s : string) :
  In kw ["speed "; "duplex "] -> is_token s = true ->
  classify c (kw +:+ s)
  = (if startswith (kw +:+ s) "speed " then
       w ← index (split_ws (kw +:+ s)) 1; Ok (set_speed c w)
     else if startswith (kw +:+ s) "duplex " then
       w ← index (split_ws (kw +:+ s)) 1; Ok (set_duplex c w)
     else if String.eqb (kw +:+ s) "shutdown" then Ok (set_shutdown c)
     else Ok c).
Proof.
  intros Hkw Hs. unfold classify.
  assert (H1 : startswith (kw +:+ s) "interface " = false).
  { simpl in Hkw. destruct Hkw as [<-|[<-|[]]]; reflexivity. }
  assert (H2 : startswith (kw +:+ s) "description " = false).
  { simpl in Hkw. destruct Hkw as [<-|[<-|[]]]; reflexivity. }
  rewrite H1, H2.
  rewrite !(no_phrase_in_token kw s) by (assumption || (simpl; tauto)).
  reflexivity.
Qed.

Lemma parse_line_speed (c : config) (s : string) :
  is_token s = true ->
  parse_line c (" speed " +:+ s)
  = Ok (append_raw_config (set_speed c s) ("speed " +:+ s)).
Proof.
  intros Hs.
  destruct (keyword_line "speed" s eq_refl Hs) as [Hst Hw].
  change ("speed" +:+ String " " s) with ("speed " +:+ s) in Hst, Hw.
  assert (Hstrip : strip (" speed " +:+ s) = "speed " +:+ s).
  { unfold strip in *. exact Hst. }
  unfold parse_line. rewrite Hstrip.
  rewrite classify_token_line by (assumption || (simpl; tauto)).
  rewrite startswith_append, Hw. cbn [index nth_error]. rewrite bind_Ok.
  cbn [String.append]. raw_kept. reflexivity.
Qed.

Lemma parse_line_duplex (c : config) (s : string) :
  is_token s = true ->
  parse_line c (" duplex " +:+ s)
  = Ok (append_raw_config (set_duplex c s) ("duplex " +:+ s)).
Proof.
  intros Hs.
  destruct (keyword_line "duplex" s eq_refl Hs) as [Hst Hw].
  change ("duplex" +:+ String " " s) with ("duplex " +:+ s) in Hst, Hw.
  assert (Hstrip : strip (" duplex " +:+ s) = "duplex " +:+ s).
  { unfold strip in *. exact Hst. }
  unfold parse_line. rewrite Hstrip.
  rewrite classify_token_line by (assumption || (simpl; tauto)).
  assert (H1 : startswith ("duplex " +:+ s) "speed " = false) by reflexivity.
  rewrite H1, startswith_append, Hw. cbn [index nth_error]. rewrite bind_Ok.
  cbn [String.append]. raw_kept. reflexivity.
Qed.

End WrittenLineFacts.

Section WrittenVlanFacts.

Import Re ConfigParser TemplateGenerator.

Ltac raw_kept :=
  match goal with
  | |- context [negb (String.eqb ?l "") && negb (startswith ?l "#")] =>
      change (negb (String.eqb l "") && negb (startswith l "#")) with true
  end.

Lemma parse_line_access_vlan (c : config) (v : Z) :
  0 < v ->
  parse_line c (" port default vlan " +:+ str v)
  = Ok (append_raw_config
          (let c1 := set_vlan c v in
           if link_type_unset c then set_port_link_type c1 "access" else c1)
          ("port default vlan " +:+ str v)).
Proof.
  intros Hv. destruct (str_nonneg v ltac:(lia)) as [Hn Hi].
  unfold parse_line.
  change (" port default vlan " +:+ str v)
    with (String " " ("port default vlan " +:+ str v)).
  rewrite (strip_line "port default vlan " (str v))
    by (discriminate || reflexivity || now apply rstrip_number
        || now apply number_nonempty).
  rewrite (classify_access_vlan c "port default vlan " (str v))
    by (assumption || (simpl; tauto)).
  rewrite bind_Ok, Hi. cbn [String.append]. raw_kept. reflexivity.
Qed.

Lemma lower_digit_or_blank (s : string) :
  forall_chars digit_or_blank s = true -> lower s = s.
Proof.
  induction s as [|c s IH]; [reflexivity |]. simpl. intros H.
  apply andb_prop in H. destruct H as [Hc H]. rewrite (IH H). f_equal.
  unfold digit_or_blank in Hc. apply orb_true_iff in Hc.
  destruct Hc as [Hc|Hc].
  - pose proof (lower_number (String c "")) as Hl. simpl in Hl.
    rewrite Hc in Hl. specialize (Hl eq_refl). now injection Hl.
  - apply Ascii.eqb_eq in Hc. now subst.
Qed.

Lemma digit_not_letter (x a : ascii) :
  is_digit x = true -> is_digit a = false -> Ascii.eqb a x = false.
Proof.
  intros Hx Ha. destruct (Ascii.eqb_spec a x) as [->|]; congruence.
Qed.

(** The line that lists the VLANs of a trunk is a trunk-permit line
    without the keyword [vlan all]. *)
Lemma trunk_list_line (ds : list string) :
  ds <> [] -> Forall (fun d => is_number d = true) ds ->
  let line := "port trunk allow-pass vlan " +:+ join " " ds in
  is_trunk_permit_line line = true
  /\ contains "vlan all" (lower line) = false.
Proof.
  intros Hne Hds line. pose proof (join_digit_or_blank ds Hds) as Hj.
  split.
  - unfold is_trunk_permit_line, line. cbn [String.append].
    assert (H3 : forall p,
      In p ["port link-type"; "port default vlan"; "port access vlan"] ->
      contains p ("port trunk allow-pass vlan " +:+ join " " ds) = false).
    { intros p Hp. simpl in Hp. cbn [String.append].
      destruct Hp as [<-|[<-|[<-|[]]]];
        repeat (rewrite contains_cons_false by reflexivity);
        now apply (contains_class digit_or_blank). }
    cbn [String.append] in H3.
    rewrite !H3 by (simpl; tauto). reflexivity.
  - unfold line.
    assert (Hl : lower ("port trunk allow-pass vlan " +:+ join " " ds)
                 = "port trunk allow-pass vlan " +:+ join " " ds).
    { cbn [String.append lower]. rewrite (lower_digit_or_blank _ Hj).
      reflexivity. }
    rewrite Hl. cbn [String.append].
    destruct ds as [|d ds]; [contradiction |].
    assert (Hd : exists x t, join " " (d :: ds) = String x t
                             /\ is_digit x = true).
    { inversion Hds as [|? ? Hd _]; subst.
      apply is_number_spec in Hd. destruct Hd as [Hdne Hd].
      destruct d as [|x d]; [contradiction |]. simpl in Hd.
      apply andb_prop in Hd. destruct Hd as [Hx _].
      destruct ds; simpl; eauto. }
    destruct Hd as (x & t & Hxt & Hx). rewrite Hxt in Hj |- *.
    repeat (rewrite contains_cons_false by reflexivity).
    rewrite contains_cons_false.
    2:{ unfold startswith.
        change (strip_prefix "vlan all"
                  (String "v" (String "l" (String "a" (String "n"
                     (String " " (String x t)))))))
          with (if Ascii.eqb "a" x then strip_prefix "ll" t else None).
        now rewrite (digit_not_letter x "a" Hx eq_refl). }
    repeat (rewrite contains_cons_false by reflexivity).
    now apply (contains_class digit_or_blank).
Qed.

Lemma parse_line_trunk_list (c : config) (vs : list Z) :
  vs <> [] -> Forall (fun z => 0 <= z) vs ->
  parse_line c (" port trunk allow-pass vlan " +:+ join " " (List.map str vs))
  = Ok (append_raw_config
          (set_trunk_vlans
             (if link_type_unset c then set_port_link_type c "trunk" else c)
             vs)
          ("port trunk allow-pass vlan " +:+ join " " (List.map str vs))).
Proof.
  intros Hne Hvs. destruct (strs_numbers vs Hvs) as [Hds Hdi].
  assert (Hne' : List.map str vs <> []) by (now destruct vs).
  destruct (rstrip_join _ Hne' Hds) as [Hr Hj].
  destruct (trunk_list_line _ Hne' Hds) as [Ht Hall].
  unfold parse_line.
  change (" port trunk allow-pass vlan " +:+ join " " (List.map str vs))
    with (String " " ("port trunk allow-pass vlan "
                        +:+ join " " (List.map str vs))).
  rewrite (strip_line "port trunk allow-pass vlan ")
    by (discriminate || reflexivity || assumption).
  rewrite (classify_trunk_permit c _ Ht), Hall, bind_Ok.
  rewrite (findall_after digits "port trunk allow-pass vlan " _
             digits_number_finder eq_refl).
  rewrite (findall_join _ _ digits_number_finder Hds), Hdi.
  cbn [String.append]. raw_kept. reflexivity.
Qed.

End WrittenVlanFacts.

Section RoundTripFacts.

Import Re ConfigParser TemplateGenerator.

Lemma parse_line_fixed (c : config) (raw : string) :
  In raw ["system-view"; " quit"; "quit"; "save"; "y"] ->
  parse_line c raw = Ok (append_raw_config c (strip raw)).
Proof.
  intros H. simpl in H.
  destruct H as [<-|[<-|[<-|[<-|[<-|[]]]]]]; reflexivity.
Qed.

Lemma parse_line_empty (c : config) : parse_line c "" = Ok c.
Proof. reflexivity. Qed.

Lemma parse_line_link_type (c : config) (t : string) :
  In t ["access"; "trunk"] ->
  parse_line c (" port link-type " +:+ t)
  = Ok (append_raw_config (set_port_link_type c t) ("port link-type " +:+ t)).
Proof.
  intros H. simpl in H. destruct H as [<-|[<-|[]]]; reflexivity.
Qed.

Lemma forall_chars_impl (p q : ascii -> bool) (s : string) :
  (forall c, p c = true -> q c = true) ->
  forall_chars p s = true -> forall_chars q s = true.
Proof.
  intros Hpq. induction s as [|c s IH]; [reflexivity |]. simpl.
  intros H. apply andb_prop in H. destruct H as [Hc Hs].
  now rewrite (Hpq c Hc), (IH Hs).
Qed.

Lemma digit_or_blank_not_newline (s : string) :
  forall_chars digit_or_blank s = true -> forall_chars not_newline s = true.
Proof.
  apply forall_chars_impl. intros c H. unfold not_newline.
  destruct (Ascii.eqb_spec c newline) as [->|]; [discriminate | reflexivity].
Qed.

Lemma token_facts (s : string) :
  is_token s = true ->
  truthy_str (Some s) = true /\ forall_chars not_newline s = true.
Proof.
  intros H. apply is_token_spec in H. destruct H as [Hne Hs].
  split; [|now apply no_space_not_newline].
  simpl. apply negb_true_iff. now apply String.eqb_neq.
Qed.

Lemma description_facts (d : string) :
  plain_description d = true ->
  truthy_str (Some d) = true /\ forall_chars not_newline d = true.
Proof.
  unfold plain_description. rewrite !andb_true_iff.
  intros (((Hne & _) & Hnl) & _). split; assumption.
Qed.

Lemma vlan_facts (v : Z) :
  0 < v ->
  truthy_int (Some v) = true /\ forall_chars not_newline (str v) = true.
Proof.
  intros Hv. split.
  - simpl. destruct (Z.eqb_spec v 0); [lia | reflexivity].
  - destruct (str_nonneg v ltac:(lia)) as [Hn _].
    now apply no_space_not_newline, number_no_space.
Qed.

Lemma trunk_list_facts (vs : list Z) :
  Forall (fun z => 0 <= z) vs ->
  forall_chars not_newline (join " " (List.map str vs)) = true.
Proof.
  intros H. destruct (strs_numbers vs H) as [Hds _].
  now apply digit_or_blank_not_newline, join_digit_or_blank.
Qed.

End RoundTripFacts.

Section RoundTrip.

Import Re ConfigParser TemplateGenerator.

Ltac read_lines :=
  repeat first
    [ rewrite bind_Ok
    | rewrite parse_line_name by assumption
    | rewrite parse_line_description by assumption
    | rewrite parse_line_link_type by (simpl; tauto)
    | rewrite parse_line_access_vlan by assumption
    | rewrite parse_line_trunk_list by (assumption || discriminate)
    | rewrite parse_line_speed by assumption
    | rewrite parse_line_duplex by assumption
    | rewrite parse_line_fixed by (simpl; tauto)
    | rewrite parse_line_empty ].

Ltac no_newlines :=
  repeat (constructor;
          [first [ reflexivity
                 | rewrite forall_chars_append;
                   apply andb_true_intro; split;
                   [reflexivity | assumption] ] |]);
  constructor.

Ltac written_case :=
  repeat match goal with
         | H : _ /\ _ |- _ => destruct H
         end;
  repeat match goal with
         | H : truthy_str _ = true |- _ => rewrite H; clear H
         | H : truthy_int _ = true |- _ => rewrite H; clear H
         end;
  cbn [truthy_str truthy_int show_opt default from_option id
       String.eqb Ascii.eqb Bool.eqb andb negb List.app];
  (rewrite split_on_join; [|discriminate | no_newlines]);
  cbn [parse_lines]; read_lines; eexists; reflexivity.

(** X11.  The text [generate_simple_config] makes of one record that
    it writes in full, given to [parse_interface_config], comes back as
    the same name, description, link type, access VLAN, trunk VLANs,
    speed and duplex.  [shutdown] does not: no line is written for it,
    and the record read back has it off. *)
Theorem X11_simple_config_read_back (iface : config) :
  written_in_full iface = true ->
  exists raw,
    parse_interface_config (generate_simple_config [iface])
    = Ok {| name := name iface; description := description iface;
            port_link_type := port_link_type iface; vlan := vlan iface;
            trunk_vlans := trunk_vlans iface; speed := speed iface;
            duplex := duplex iface; shutdown := false;
            raw_config := raw |}.
Proof.
  destruct iface as [nm ds lt vl tv sp dp sh rw].
  unfold written_in_full. cbn [name description port_link_type vlan
    trunk_vlans speed duplex shutdown raw_config].
  rewrite !andb_true_iff. intros ((((Hn & Hd) & Hl) & Hs) & Hp).
  destruct nm as [n|]; [|discriminate].
  destruct (token_facts n Hn) as [Tn Nn].
  assert (Hds : match ds with
                | Some d => plain_description d = true
                            /\ truthy_str (Some d) = true
                            /\ forall_chars not_newline d = true
                | None => True
                end).
  { destruct ds as [d|]; [|exact I].
    destruct (description_facts d Hd). tauto. }
  assert (Hsp : forall o, token_or_none o = true ->
                match o with
                | Some s => is_token s = true /\ truthy_str (Some s) = true
                            /\ forall_chars not_newline s = true
                | None => True
                end).
  { intros [s|] H; [|exact I]. destruct (token_facts s H). tauto. }
  apply Hsp in Hs. apply Hsp in Hp. clear Hsp Hd.
  unfold parse_interface_config, generate_simple_config, config_lines,
    interface_lines.
  cbn [name description port_link_type vlan trunk_vlans speed duplex
       shutdown raw_config List.flat_map].
  destruct lt as [t|].
  - apply orb_true_iff in Hl. rewrite !andb_true_iff in Hl.
    destruct Hl as [[[Ht Hv] Htv] | [[Ht Hv] Htv]];
      apply String.eqb_eq in Ht; subst t.
    + destruct tv; [|discriminate].
      destruct vl as [v|].
      * apply Z.ltb_lt in Hv. destruct (vlan_facts v Hv) as [Tv Nv].
        destruct ds as [d|], sp as [s|], dp as [x|]; written_case.
      * destruct ds as [d|], sp as [s|], dp as [x|]; written_case.
    + destruct vl; [discriminate |].
      assert (Hvs : Forall (fun z => 0 <= z) tv).
      { apply List.Forall_forall. intros z Hz.
        rewrite forallb_forall in Htv. apply Z.leb_le. now apply Htv. }
      pose proof (trunk_list_facts tv Hvs) as Ntv.
      destruct tv as [|v0 tv].
      * destruct ds as [d|], sp as [s|], dp as [x|]; written_case.
      * destruct ds as [d|], sp as [s|], dp as [x|]; written_case.
  - apply andb_prop in Hl. destruct Hl as [Hv Htv].
    destruct vl; [discriminate |]. destruct tv; [|discriminate].
    destruct ds as [d|], sp as [s|], dp as [x|]; written_case.
Qed.

Lemma X11_simple_config_read_back_witness :
  exists raw,
    parse_interface_config
      (generate_simple_config
         [{| name := Some "GE1/0/5"; description := Some "to core";
             port_link_type := Some "trunk"; vlan := None;
             trunk_vlans := [10; 20; 30]; speed := Some "1000";
             duplex := Some "full"; shutdown := true; raw_config := [] |}])
    = Ok {| name := Some "GE1/0/5"; description := Some "to core";
            port_link_type := Some "trunk"; vlan := None;
            trunk_vlans := [10; 20; 30]; speed := Some "1000";
            duplex := Some "full"; shutdown := false; raw_config := raw |}.
Proof.
  exact (X11_simple_config_read_back
           {| name := Some "GE1/0/5"; description := Some "to core";
              port_link_type := Some "trunk"; vlan := None;
              trunk_vlans := [10; 20; 30]; speed := Some "1000";
              duplex := Some "full"; shutdown := true; raw_config := [] |}
           eq_refl).
Defined.

End RoundTrip.
